(** * PSER Survey: the local persistence layer of [app.js]

    A shallow embedding of the record list of [class PSERSurvey], of the two
    on-device stores it is synchronised with (the IndexedDB object store
    [surveys] of [PSERDatabase] and the [localStorage] item [pserSurveys]),
    and of the methods that read and write them, followed by the properties
    of the repository layer. *)

From stdpp Require Import base strings list countable pretty.
From Stdlib Require Import Ascii ZArith Lia Sorted.

Local Open Scope Z_scope.
Local Open Scope string_scope.
Local Open Scope list_scope.

(** ** JavaScript values stored in a record *)

(** The result of [parseInt]: an integer or [NaN]. *)
Inductive number :=
  | NaN
  | Num (z : Z).

(** [x || 0] on a number: [NaN] and [0] are falsy. *)
Definition or_zero (n : number) : Z :=
  match n with
  | NaN => 0
  | Num z => z
  end.

(** [a === b] where [a] is a stored numeric field ([None] is [null]) and [b]
    a number: [NaN] is equal to nothing, [null] is not a number. *)
Definition strict_eq_number (a : option number) (b : number) : bool :=
  match a, b with
  | Some (Num x), Num y => (x =? y)%Z
  | _, _ => false
  end.

(** A string is truthy when it is not empty; [null] is falsy. *)
Definition truthy (s : string) : bool := negb (s =? "")%string.

Definition truthy_opt (o : option string) : bool :=
  match o with
  | Some s => truthy s
  | None => false
  end.

(** The coordinates delivered by the geolocation service are carried through
    the repository untouched; a coordinate is represented by the bit pattern
    of its (finite) double. *)
Inductive double := Binary64 (bits : Z).

Record Location := {
  latitude : double;
  longitude : double;
  accuracy : double
}.

Record Livestock := { buffalo : Z; cow : Z; goat : Z; sheep : Z }.
Record Transport := { motorcycle : Z; car : Z; van : Z; scooter : Z }.
Record Appliances := {
  solar : Z; ac : Z; geyser : Z; washingMachine : Z; fridge : Z
}.

(** The object built by [getFormData]. [None] stands for [null]. *)
Record Survey := {
  id : string;
  blockCode : string;
  houseNumber : option number;
  familiesCount : option number;
  xFamily : string;
  houseCode : string;
  respondentName : string;
  hohName : string;
  hohFatherName : string;
  hohCnic : string;
  maleMembers : Z;
  femaleMembers : Z;
  othersMembers : Z;
  totalMembers : Z;
  registerNumber : option number;
  location : option Location;
  photo : option string;
  signature : option string;
  livestock : Livestock;
  transport : Transport;
  appliances : Appliances;
  contactNumber : string;
  timestamp : string
}.

#[global] Instance number_eq_dec : EqDecision number.
Proof. solve_decision. Defined.
#[global] Instance double_eq_dec : EqDecision double.
Proof. solve_decision. Defined.
#[global] Instance Location_eq_dec : EqDecision Location.
Proof. solve_decision. Defined.
#[global] Instance Livestock_eq_dec : EqDecision Livestock.
Proof. solve_decision. Defined.
#[global] Instance Transport_eq_dec : EqDecision Transport.
Proof. solve_decision. Defined.
#[global] Instance Appliances_eq_dec : EqDecision Appliances.
Proof. solve_decision. Defined.
#[global] Instance Survey_eq_dec : EqDecision Survey.
Proof. solve_decision. Defined.

(** What [JSON.stringify] keeps of a number: [NaN] is written as [null]. *)
Definition number_toJSON (n : option number) : option number :=
  match n with
  | Some NaN => None
  | other => other
  end.

(** The record read back from the text [JSON.stringify] wrote for it. The
    fields that [getFormData] guards with [|| 0] are never [NaN]. *)
Definition toJSON (s : Survey) : Survey :=
  {| id := id s;
     blockCode := blockCode s;
     houseNumber := number_toJSON (houseNumber s);
     familiesCount := number_toJSON (familiesCount s);
     xFamily := xFamily s;
     houseCode := houseCode s;
     respondentName := respondentName s;
     hohName := hohName s;
     hohFatherName := hohFatherName s;
     hohCnic := hohCnic s;
     maleMembers := maleMembers s;
     femaleMembers := femaleMembers s;
     othersMembers := othersMembers s;
     totalMembers := totalMembers s;
     registerNumber := number_toJSON (registerNumber s);
     location := location s;
     photo := photo s;
     signature := signature s;
     livestock := livestock s;
     transport := transport s;
     appliances := appliances s;
     contactNumber := contactNumber s;
     timestamp := timestamp s |}.

(** A record that [JSON.stringify] writes without loss. *)
Definition json_safe (s : Survey) : Prop := toJSON s = s.

#[global] Instance json_safe_dec s : Decision (json_safe s).
Proof. unfold json_safe. apply _. Defined.

(** ** The built-in functions the methods call

    [parseInt], [String.prototype.trim] and the [JSON] object belong to the
    JavaScript platform, not to [app.js]; the methods are parametrised by
    them. [JSON_parse] returns [None] where [JSON.parse] throws. The record
    list is typed: a text that parses to anything but an array of survey
    objects is outside the model. *)
Class Platform := {
  parseInt : string -> number;
  trim : string -> string;
  JSON_stringify : list Survey -> string;
  JSON_parse : string -> option (list Survey)
}.

(** The contract of the [JSON] object on record lists: parsing the text
    written for a list gives the list back, up to [toJSON], and the text
    written for a list (it starts with a bracket) is never empty. *)
Class PlatformLaws (P : Platform) : Prop := {
  JSON_parse_stringify :
    forall l : list Survey, JSON_parse (JSON_stringify l) = Some (toJSON <$> l);
  JSON_stringify_not_empty :
    forall l : list Survey, JSON_stringify l <> ""
}.

(** ** The application object and the device *)

(** The handle [indexedDB.open] delivers. *)
Inductive DbHandle := PSERDatabase.

(** The fields of [this] that the repository layer reads or writes
    ([isDrawing], [deferredPrompt] and the canvas context are user-interface
    state). [None] stands for [null]. *)
Record PSERSurvey := {
  database : option DbHandle;
  surveys : list Survey;
  currentEditId : option string;
  currentLocation : option Location;
  currentPhoto : option string;
  currentSignature : option string;
  defaultBlockCode : string
}.

(** What the user and the stores observe of a run. *)
Inductive Event :=
  | Alert (msg : string)
  | SetItem (value : string)
  | Display (results : list Survey).

(** The device: the object store [surveys] (records in ascending order of
    their key [id], the order [getAll] delivers), the [localStorage] item
    [pserSurveys], and the events so far, oldest first. *)
Record World := {
  objectStore : list Survey;
  pserSurveys : option string;
  trace : list Event
}.

Record State := {
  this : PSERSurvey;
  world : World
}.

(** How the device answers during one run: whether [indexedDB.open], the
    [getAll] request and the [clear] request fail, which records an [add]
    request fails on for a reason of the store's own, and which texts
    [localStorage.setItem] refuses (it throws when the quota is exceeded). *)
Record Env := {
  open_fails : bool;
  getAll_fails : bool;
  clear_fails : bool;
  add_fails : Survey -> bool;
  setItem_throws : string -> bool
}.

(** ** Statements: state, and exceptions with [try]/[catch] *)

Inductive Exn :=
  | SyntaxError
  | TypeError
  | QuotaExceededError
  | Error (message : string).

Inductive Completion (A : Type) :=
  | Normal (a : A)
  | Throw (e : Exn).
Arguments Normal {A} a.
Arguments Throw {A} e.

Definition M (A : Type) : Type := State -> Completion A * State.

Definition ret {A} (a : A) : M A := fun st => (Normal a, st).

Definition bind {A B} (m : M A) (k : A -> M B) : M B :=
  fun st =>
    match m st with
    | (Normal a, st') => k a st'
    | (Throw e, st') => (Throw e, st')
    end.

Definition throw {A} (e : Exn) : M A := fun st => (Throw e, st).

Definition try_catch {A} (body : M A) (handler : Exn -> M A) : M A :=
  fun st =>
    match body st with
    | (Normal a, st') => (Normal a, st')
    | (Throw e, st') => handler e st'
    end.

Declare Scope js_scope.
Delimit Scope js_scope with js.
Notation "x <- m ;; k" := (bind m (fun x => k))
  (at level 100, m at next level, right associativity) : js_scope.
Notation "m ;; k" := (bind m (fun _ => k))
  (at level 100, right associativity) : js_scope.
Local Open Scope js_scope.

(** Running a statement: the state it leaves and how it completes. *)
Definition exec {A} (m : M A) (st : State) : State := snd (m st).
Definition completion {A} (m : M A) (st : State) : Completion A := fst (m st).

Definition get_this : M PSERSurvey := fun st => (Normal (this st), st).
Definition get_world : M World := fun st => (Normal (world st), st).

Definition set_surveys (l : list Survey) : M unit :=
  fun st =>
    (Normal tt,
     {| this := {| database := database (this st);
                   surveys := l;
                   currentEditId := currentEditId (this st);
                   currentLocation := currentLocation (this st);
                   currentPhoto := currentPhoto (this st);
                   currentSignature := currentSignature (this st);
                   defaultBlockCode := defaultBlockCode (this st) |};
        world := world st |}).

Definition set_database (db : option DbHandle) : M unit :=
  fun st =>
    (Normal tt,
     {| this := {| database := db;
                   surveys := surveys (this st);
                   currentEditId := currentEditId (this st);
                   currentLocation := currentLocation (this st);
                   currentPhoto := currentPhoto (this st);
                   currentSignature := currentSignature (this st);
                   defaultBlockCode := defaultBlockCode (this st) |};
        world := world st |}).

(** [clearForm], as far as [this] goes: the edit id and the captured
    location, photo and signature are reset. *)
Definition reset_edit : M unit :=
  fun st =>
    (Normal tt,
     {| this := {| database := database (this st);
                   surveys := surveys (this st);
                   currentEditId := None;
                   currentLocation := None;
                   currentPhoto := None;
                   currentSignature := None;
                   defaultBlockCode := defaultBlockCode (this st) |};
        world := world st |}).

Definition log (e : Event) : M unit :=
  fun st =>
    (Normal tt,
     {| this := this st;
        world := {| objectStore := objectStore (world st);
                    pserSurveys := pserSurveys (world st);
                    trace := trace (world st) ++ [e] |} |}).

Definition alert (msg : string) : M unit := log (Alert msg).

Definition put_objectStore (store : list Survey) : M unit :=
  fun st =>
    (Normal tt,
     {| this := this st;
        world := {| objectStore := store;
                    pserSurveys := pserSurveys (world st);
                    trace := trace (world st) |} |}).

Definition put_pserSurveys (v : string) : M unit :=
  fun st =>
    (Normal tt,
     {| this := this st;
        world := {| objectStore := objectStore (world st);
                    pserSurveys := Some v;
                    trace := trace (world st) |} |}).

(** Running a statement [n] times. *)
Fixpoint times (n : nat) (m : M unit) : M unit :=
  match n with
  | O => ret tt
  | S n' => m ;; times n' m
  end.

(** ** Arrays *)

(** [Array.prototype.findIndex]; [None] is the result [-1]. *)
Fixpoint findIndex {A} (p : A -> bool) (l : list A) : option nat :=
  match l with
  | [] => None
  | x :: rest => if p x then Some O else option_map S (findIndex p rest)
  end.

(** ** The object store [surveys], keyed by [id] *)

Definition has_key (k : string) (store : list Survey) : bool :=
  existsb (fun s => (id s =? k)%string) store.

(** The place of a new record among the stored ones, in key order. *)
Fixpoint insert_by_key (s : Survey) (store : list Survey) : list Survey :=
  match store with
  | [] => [s]
  | x :: rest =>
      if String.ltb (id s) (id x) then s :: x :: rest
      else x :: insert_by_key s rest
  end.

(** ** The methods of [class PSERSurvey] *)

Section Methods.

Context {P : Platform} (env : Env).

(** *** The blob store: [localStorage] *)

Definition localStorage_getItem : M (option string) :=
  w <- get_world ;; ret (pserSurveys w).

(** [localStorage.setItem('pserSurveys', v)]. *)
Definition localStorage_setItem (v : string) : M unit :=
  log (SetItem v) ;;
  if setItem_throws env v then throw QuotaExceededError
  else put_pserSurveys v.

Definition JSON_parse_text (text : string) : M (list Survey) :=
  match JSON_parse text with
  | Some l => ret l
  | None => throw SyntaxError
  end.

Definition loadFromLocalStorage : M unit :=
  try_catch
    (stored <- localStorage_getItem ;;
     l <- (if truthy_opt stored
           then JSON_parse_text (default "" stored)
           else ret []) ;;
     set_surveys l)
    (fun _ => set_surveys []).

Definition saveToLocalStorage : M unit :=
  try_catch
    (t <- get_this ;;
     localStorage_setItem (JSON_stringify (surveys t)))
    (fun _ => alert "Error saving data. Please try again.").

(** *** The structured store: IndexedDB *)

(** One [store.add(survey)] request: it fails when the store refuses the
    record or already holds a record with its key. *)
Definition objectStore_add (s : Survey) (store : list Survey)
  : option (list Survey) :=
  if add_fails env s || has_key (id s) store then None
  else Some (insert_by_key s store).

(** The [add] requests of one transaction, in the order they were placed:
    the store they leave, or, at the first failing request, the number of
    requests still pending behind it. *)
Fixpoint add_each (requests : list Survey) (store : list Survey)
  : list Survey + nat :=
  match requests with
  | [] => inl store
  | s :: rest =>
      match objectStore_add s store with
      | Some store' => add_each rest store'
      | None => inr (length rest)
      end
  end.

(** The callbacks of the [readwrite] transaction of [saveToDatabase]. No
    handler calls [preventDefault], so a failed request aborts the
    transaction: the store keeps what it held before, the [error] event of
    the failed request and of every request still pending reaches
    [transaction.onerror], and a failed [add] also rejects [Promise.all]. *)
Definition saveToDatabase_transaction : M unit :=
  if clear_fails env then
    (* clearRequest.onerror, then transaction.onerror *)
    saveToLocalStorage ;; saveToLocalStorage
  else
    t <- get_this ;;
    match add_each (surveys t) [] with
    | inl store =>
        put_objectStore store ;;
        saveToLocalStorage
    | inr pending =>
        (* the catch of Promise.all, then transaction.onerror *)
        saveToLocalStorage ;;
        saveToLocalStorage ;;
        times pending saveToLocalStorage
    end.

Definition saveToDatabase : M unit :=
  t <- get_this ;;
  match database t with
  | None => saveToLocalStorage
  | Some _ => saveToDatabase_transaction
  end.

Definition loadFromDatabase : M unit :=
  t <- get_this ;;
  match database t with
  | None => loadFromLocalStorage
  | Some _ =>
      if getAll_fails env then loadFromLocalStorage
      else
        w <- get_world ;;
        set_surveys (objectStore w) ;;
        if (0 <? length (objectStore w))%nat then saveToLocalStorage
        else ret tt
  end.

Definition initDatabase : M unit :=
  if open_fails env then loadFromLocalStorage
  else set_database (Some PSERDatabase) ;; loadFromDatabase.

End Methods.

(** The object the constructor builds, and the state of a freshly started
    process on a device. *)
Definition new_PSERSurvey : PSERSurvey :=
  {| database := None;
     surveys := [];
     currentEditId := None;
     currentLocation := None;
     currentPhoto := None;
     currentSignature := None;
     defaultBlockCode := "162030416" |}.

Definition start (w : World) : State :=
  {| this := new_PSERSurvey; world := w |}.

(** ** Strings *)

Definition is_digit (c : ascii) : bool :=
  (48 <=? nat_of_ascii c)%nat && (nat_of_ascii c <=? 57)%nat.

(** [s.replace(/\D/g, '')]: the digits of [s], in order. *)
Fixpoint digits_only (s : string) : string :=
  match s with
  | EmptyString => EmptyString
  | String c rest =>
      if is_digit c then String c (digits_only rest) else digits_only rest
  end.

Fixpoint starts_with (sub s : string) : bool :=
  match sub, s with
  | EmptyString, _ => true
  | String a sub', String b s' => Ascii.eqb a b && starts_with sub' s'
  | String _ _, EmptyString => false
  end.

(** [s.includes(sub)]. *)
Fixpoint includes (s sub : string) : bool :=
  starts_with sub s ||
  match s with
  | EmptyString => false
  | String _ rest => includes rest sub
  end.

(** The two patterns of [validateForm] are sequences of [\d] and literal
    characters between [^] and [$]. *)
Inductive Atom :=
  | Digit
  | Lit (c : ascii).

Fixpoint test (pattern : list Atom) (s : string) : bool :=
  match pattern, s with
  | [], EmptyString => true
  | Digit :: pattern', String c rest => is_digit c && test pattern' rest
  | Lit a :: pattern', String c rest => Ascii.eqb a c && test pattern' rest
  | _, _ => false
  end.

(** [/^\d{5}-\d{7}-\d{1}$/] *)
Definition cnic_pattern : list Atom :=
  replicate 5 Digit ++ [Lit "-"%char] ++ replicate 7 Digit
  ++ [Lit "-"%char] ++ replicate 1 Digit.

(** [/^03\d{2}-\d{7}$/] *)
Definition contact_pattern : list Atom :=
  [Lit "0"%char; Lit "3"%char] ++ replicate 2 Digit ++ [Lit "-"%char]
  ++ replicate 7 Digit.

(** ** The page *)

(** The values [getValue] reads from the inputs of the survey form (the empty
    string for an input that is missing) and the checked [xFamily] radio
    button, if any. *)
Module Dom.
Record Form := {
  blockCode : string;
  houseNumber : string;
  familiesCount : string;
  xFamily : option string;
  houseCode : string;
  respondentName : string;
  hohName : string;
  hohFatherName : string;
  hohCnic : string;
  maleMembers : string;
  femaleMembers : string;
  othersMembers : string;
  totalMembers : string;
  registerNumber : string;
  buffalo : string;
  cow : string;
  goat : string;
  sheep : string;
  motorcycle : string;
  car : string;
  van : string;
  scooter : string;
  solar : string;
  ac : string;
  geyser : string;
  washingMachine : string;
  fridge : string;
  contactNumber : string
}.

(** The values of the two search inputs; [None] for a missing input. *)
Record Search := {
  searchHouseNumber : option string;
  searchCnic : option string
}.
End Dom.

(** ** The backup file, as [restoreBackup] looks at it *)

(** The value of [backupData.surveys]. *)
Inductive SurveysField :=
  | Undefined
  | Null
  | Boolean (b : bool)
  | Number (n : number)
  | Text (s : string)
  | Object
  | Array (l : list Survey).

(** What [JSON.parse(e.target.result)] does on the text of the file: it
    throws, or gives [null] (reading a property of it throws), or gives a
    value whose property [surveys] is the given one. *)
Inductive BackupData :=
  | Unparseable
  | ParsedNull
  | Parsed (surveys_field : SurveysField).

(** The file the user picked: none, one the reader fails on, or one read. *)
Inductive BackupFile :=
  | NoFile
  | Unreadable
  | Content (data : BackupData).

Definition truthy_field (v : SurveysField) : bool :=
  match v with
  | Undefined | Null => false
  | Boolean b => b
  | Number NaN => false
  | Number (Num z) => negb (z =? 0)%Z
  | Text s => truthy s
  | Object | Array _ => true
  end.

Definition Array_isArray (v : SurveysField) : bool :=
  match v with
  | Array _ => true
  | _ => false
  end.

Section Handlers.

Context {P : Platform} (env : Env).

(** *** Form validation and data management *)

(** The required inputs in the order [validateForm] visits them, each with
    the name the alert gives it
    ([field.replace(/([A-Z])/g, ' $1').toLowerCase()]). *)
Definition requiredFields (form : Dom.Form) : list (string * string) :=
  [ (Dom.blockCode form, "block code");
    (Dom.houseNumber form, "house number");
    (Dom.respondentName form, "respondent name");
    (Dom.hohName form, "hoh name");
    (Dom.hohFatherName form, "hoh father name");
    (Dom.hohCnic form, "hoh cnic");
    (Dom.familiesCount form, "families count");
    (Dom.contactNumber form, "contact number") ].

Fixpoint check_required (fields : list (string * string)) : M bool :=
  match fields with
  | [] => ret true
  | (value, fieldName) :: rest =>
      if truthy (trim value) then check_required rest
      else alert ("Please fill in " +:+ fieldName) ;; ret false
  end.

Definition validateForm (form : Dom.Form) : M bool :=
  filled <- check_required (requiredFields form) ;;
  if negb filled then ret false
  else if negb (test cnic_pattern (Dom.hohCnic form)) then
    alert "Please enter a valid CNIC in format: 33301-1234567-1" ;;
    ret false
  else if negb (test contact_pattern (Dom.contactNumber form)) then
    alert "Please enter a valid contact number starting with 03 in format: 0345-1234567" ;;
    ret false
  else ret true.

(** [getFormData]; [now] is [Date.now().toString()] and [iso] is
    [new Date().toISOString()] at the time of the call. *)
Definition getFormData (t : PSERSurvey) (form : Dom.Form) (now iso : string)
  : Survey :=
  {| id := if truthy_opt (currentEditId t)
           then default "" (currentEditId t) else now;
     blockCode := Dom.blockCode form;
     houseNumber := Some (parseInt (Dom.houseNumber form));
     familiesCount := Some (parseInt (Dom.familiesCount form));
     xFamily := default "no" (Dom.xFamily form);
     houseCode := Dom.houseCode form;
     respondentName := trim (Dom.respondentName form);
     hohName := trim (Dom.hohName form);
     hohFatherName := trim (Dom.hohFatherName form);
     hohCnic := Dom.hohCnic form;
     maleMembers := or_zero (parseInt (Dom.maleMembers form));
     femaleMembers := or_zero (parseInt (Dom.femaleMembers form));
     othersMembers := or_zero (parseInt (Dom.othersMembers form));
     totalMembers := or_zero (parseInt (Dom.totalMembers form));
     registerNumber := if truthy (Dom.registerNumber form)
                       then Some (parseInt (Dom.registerNumber form))
                       else None;
     location := currentLocation t;
     photo := currentPhoto t;
     signature := currentSignature t;
     livestock :=
       {| buffalo := or_zero (parseInt (Dom.buffalo form));
          cow := or_zero (parseInt (Dom.cow form));
          goat := or_zero (parseInt (Dom.goat form));
          sheep := or_zero (parseInt (Dom.sheep form)) |};
     transport :=
       {| motorcycle := or_zero (parseInt (Dom.motorcycle form));
          car := or_zero (parseInt (Dom.car form));
          van := or_zero (parseInt (Dom.van form));
          scooter := or_zero (parseInt (Dom.scooter form)) |};
     appliances :=
       {| solar := or_zero (parseInt (Dom.solar form));
          ac := or_zero (parseInt (Dom.ac form));
          geyser := or_zero (parseInt (Dom.geyser form));
          washingMachine := or_zero (parseInt (Dom.washingMachine form));
          fridge := or_zero (parseInt (Dom.fridge form)) |};
     contactNumber := Dom.contactNumber form;
     timestamp := iso |}.

(** The update [saveSurvey] makes to [this.surveys] for the record
    [surveyData]: in edit mode the first entry with the edit id, if there is
    one, is overwritten; otherwise the record is pushed. *)
Definition store_surveyData (editId : option string) (surveyData : Survey)
    (l : list Survey) : list Survey :=
  if truthy_opt editId then
    match findIndex (fun s => (id s =? default "" editId)%string) l with
    | Some index => <[index := surveyData]> l
    | None => l
    end
  else l ++ [surveyData].

Definition saveSurvey (form : Dom.Form) (now iso : string) (isNew : bool)
  : M unit :=
  valid <- validateForm form ;;
  if negb valid then ret tt
  else
    t <- get_this ;;
    set_surveys
      (store_surveyData (currentEditId t) (getFormData t form now iso)
         (surveys t)) ;;
    saveToDatabase env ;;
    alert "Survey data saved successfully!" ;;
    if isNew then reset_edit else ret tt.

(** *** Search and display *)

Definition displaySearchResults (results : list Survey) : M unit :=
  log (Display results).

(** [l.filter((x, index) => p x index)], for the indices from [start]. *)
Fixpoint filter_from {A} (start : nat) (p : A -> nat -> bool) (l : list A)
  : list A :=
  match l with
  | [] => []
  | x :: rest =>
      if p x start then x :: filter_from (S start) p rest
      else filter_from (S start) p rest
  end.

(** The entries that are the first of their id in [self]. *)
Definition first_of_id (self : list Survey) : list Survey :=
  filter_from 0
    (fun survey index =>
       match findIndex (fun s => (id s =? id survey)%string) self with
       | Some first => (index =? first)%nat
       | None => false
       end)
    self.

Definition by_houseNumber (wanted : number) (l : list Survey)
  : list Survey :=
  List.filter (fun survey => strict_eq_number (houseNumber survey) wanted) l.

Definition by_cnic (searchCnic : string) (l : list Survey) : list Survey :=
  List.filter (fun survey => includes (digits_only (hohCnic survey)) searchCnic) l.

(** The list [searchSurvey] hands to [displaySearchResults], or [None] when
    neither input has a value and the user is asked for one. *)
Definition search_results (inputs : Dom.Search) (l : list Survey)
  : option (list Survey) :=
  if negb (truthy_opt (Dom.searchHouseNumber inputs))
     && negb (truthy_opt (Dom.searchCnic inputs))
  then None
  else
    let results :=
      if truthy_opt (Dom.searchHouseNumber inputs)
      then by_houseNumber
             (parseInt (default "" (Dom.searchHouseNumber inputs))) l
      else [] in
    Some
      (if truthy_opt (Dom.searchCnic inputs) then
         let cnicResults :=
           by_cnic (digits_only (default "" (Dom.searchCnic inputs))) l in
         if (0 <? length results)%nat && (0 <? length cnicResults)%nat
         then first_of_id (results ++ cnicResults)
         else if (0 <? length cnicResults)%nat then cnicResults
         else results
       else results).

Definition searchSurvey (inputs : Dom.Search) : M unit :=
  t <- get_this ;;
  match search_results inputs (surveys t) with
  | None => alert "Please enter either House Number or CNIC Number to search"
  | Some results => displaySearchResults results
  end.

(** *** Edit and delete *)

(** [editSurvey], as far as [this] goes (the inputs of the form are filled
    from the record). *)
Definition editSurvey (id0 : string) : M unit :=
  fun st =>
    match List.find (fun s => (id s =? id0)%string) (surveys (this st)) with
    | None => (Normal tt, st)
    | Some survey =>
        (Normal tt,
         {| this := {| database := database (this st);
                       surveys := surveys (this st);
                       currentEditId := Some id0;
                       currentLocation := location survey;
                       currentPhoto :=
                         if truthy_opt (photo survey) then photo survey
                         else None;
                       currentSignature :=
                         if truthy_opt (signature survey)
                         then signature survey else None;
                       defaultBlockCode := defaultBlockCode (this st) |};
            world := world st |})
    end.

(** The part of an un-awaited [saveToDatabase()] that runs before the call
    returns, and the part that runs once the calling handler has returned. *)
Definition saveToDatabase_now : M unit :=
  t <- get_this ;;
  match database t with
  | None => saveToLocalStorage env
  | Some _ => ret tt
  end.

Definition saveToDatabase_later : M unit :=
  t <- get_this ;;
  match database t with
  | None => ret tt
  | Some _ => saveToDatabase_transaction env
  end.

(** [deleteSurvey(id)]; [confirmed] is the user's answer to the dialog and
    [inputs] what the search inputs hold. *)
Definition deleteSurvey (id0 : string) (confirmed : bool)
    (inputs : Dom.Search) : M unit :=
  if confirmed then
    t <- get_this ;;
    set_surveys
      (List.filter (fun s => negb (id s =? id0)%string) (surveys t)) ;;
    saveToLocalStorage env ;;
    saveToDatabase_now ;;
    searchSurvey inputs ;;
    alert "Record deleted successfully!" ;;
    saveToDatabase_later
  else ret tt.

(** *** Backup and restore *)

(** The [onload] handler of [restoreBackup]. *)
Definition restoreBackup_onload (data : BackupData) (confirmed : bool)
    (inputs : Dom.Search) : M unit :=
  try_catch
    (field <- match data with
              | Unparseable => throw SyntaxError
              | ParsedNull => throw TypeError
              | Parsed field => ret field
              end ;;
     if negb (truthy_field field) || negb (Array_isArray field) then
       throw (Error "Invalid backup file format")
     else
       match field with
       | Array l =>
           if confirmed then
             set_surveys l ;;
             saveToDatabase env ;;
             alert ("Backup restored successfully! " +:+ pretty (length l)
                    +:+ " records loaded.") ;;
             searchSurvey inputs
           else ret tt
       | _ => ret tt
       end)
    (fun _ => alert "Error restoring backup. Please check the file format.").

Definition restoreBackup (file : BackupFile) (confirmed : bool)
    (inputs : Dom.Search) : M unit :=
  match file with
  | NoFile => ret tt
  | Unreadable => alert "Error reading backup file"
  | Content data => restoreBackup_onload data confirmed inputs
  end.

(** *** Clearing all data *)

Definition confirmClearAll (password : string) (inputs : Dom.Search)
  : M unit :=
  if (password =? "1234")%string then
    set_surveys [] ;;
    saveToLocalStorage env ;;
    saveToDatabase_now ;;
    alert "All data has been cleared successfully!" ;;
    searchSurvey inputs ;;
    saveToDatabase_later
  else alert "Incorrect password! Data was not cleared.".

End Handlers.

(** ** The input handlers of [setupInputFormats] *)

(** [s.substring(0, n)] and [s.substring(n)]. *)
Fixpoint substring_to (n : nat) (s : string) : string :=
  match n, s with
  | S n', String c rest => String c (substring_to n' rest)
  | _, _ => EmptyString
  end.

Fixpoint substring_from (n : nat) (s : string) : string :=
  match n, s with
  | S n', String _ rest => substring_from n' rest
  | _, _ => s
  end.

(** The [input] handler of the CNIC input of the form and of the CNIC
    search input: the value of the input after the handler, from the value
    typed. With more than 13 digits the handler leaves the input as it
    is. *)
Definition format_cnic (typed : string) : string :=
  let value := digits_only typed in
  if (String.length value <=? 13)%nat then
    let value :=
      if (5 <? String.length value)%nat
      then substring_to 5 value +:+ "-" +:+ substring_from 5 value
      else value in
    let value :=
      if (13 <? String.length value)%nat
      then substring_to 13 value +:+ "-" +:+ substring_from 13 value
      else value in
    value
  else typed.

(** The [input] handler of the contact-number input. *)
Definition format_contact (typed : string) : string :=
  let value := digits_only typed in
  let value := if starts_with "3" value then "0" +:+ value else value in
  if (String.length value <=? 11)%nat then
    if (4 <? String.length value)%nat
    then substring_to 4 value +:+ "-" +:+ substring_from 4 value
    else value
  else typed.

(** Whether a position of a pattern takes a digit, and whether a string
    holds digits only. *)
Definition atom_is_digit (a : Atom) : bool :=
  match a with Digit => true | Lit c => is_digit c end.

Fixpoint all_digits (s : string) : bool :=
  match s with
  | EmptyString => true
  | String c rest => is_digit c && all_digits rest
  end.

(** What the CNIC handler builds from the digits [d] of the typed text. *)
Definition dashed_cnic (d : string) : string :=
  let value :=
    if (5 <? String.length d)%nat
    then substring_to 5 d +:+ "-" +:+ substring_from 5 d else d in
  if (13 <? String.length value)%nat
  then substring_to 13 value +:+ "-" +:+ substring_from 13 value
  else value.

(** The digits of the typed text behind the zero the contact handler puts
    before a leading 3, and what the handler builds from them. *)
Definition contact_digits (typed : string) : string :=
  if starts_with "3" (digits_only typed) then "0" +:+ digits_only typed
  else digits_only typed.

Definition dashed_contact (d : string) : string :=
  if (4 <? String.length d)%nat
  then substring_to 4 d +:+ "-" +:+ substring_from 4 d else d.

(** ** The house code *)

(** [Number.prototype.toString] on integers. *)
Class NumberPlatform := {
  Number_toString : Z -> string
}.

(** The contract of [toString]: the integers up to [2^53], which a double
    holds exactly, are written in decimal. *)
Class NumberLaws (NP : NumberPlatform) : Prop := {
  Number_toString_decimal :
    forall z : Z, 0 <= z <= 2 ^ 53 -> Number_toString z = pretty z
}.

Fixpoint repeat_char (n : nat) (c : ascii) : string :=
  match n with
  | O => EmptyString
  | S n' => String c (repeat_char n' c)
  end.

(** [s.padStart(targetLength, c)] for a pad string of one character. *)
Definition padStart (targetLength : nat) (c : ascii) (s : string) : string :=
  repeat_char (targetLength - String.length s) c +:+ s.

(** [String.fromCharCode(code)] for the code of an ASCII character. *)
Definition String_fromCharCode (code : Z) : string :=
  String (ascii_of_N (Z.to_N code)) EmptyString.

(** [generateHouseCode]: the value written to the [houseCode] input, from
    the values of the [houseNumber] and [familiesCount] inputs and the state
    of the [xFamily] radio button. *)
Definition generateHouseCode {P : Platform} {NP : NumberPlatform}
    (houseNumberValue familiesValue : string) (isXFamily : bool) : string :=
  let houseNumber := or_zero (parseInt houseNumberValue) in
  let familiesCount := or_zero (parseInt familiesValue) in
  if (0 <? houseNumber)%Z then
    let formattedHouseNumber := padStart 4 "0" (Number_toString houseNumber) in
    if (0 <? familiesCount)%Z && (familiesCount <=? 26)%Z then
      let familyCode := String_fromCharCode (64 + familiesCount) in
      let houseCode := formattedHouseNumber +:+ "/" +:+ familyCode in
      if isXFamily then houseCode +:+ ",X" else houseCode
    else formattedHouseNumber
  else "".

(** The part of the house code behind the house number. *)
Definition family_suffix (familiesCount : Z) (isXFamily : bool) : string :=
  if (0 <? familiesCount)%Z && (familiesCount <=? 26)%Z then
    "/" +:+ String_fromCharCode (64 + familiesCount)
    +:+ (if isXFamily then ",X" else "")
  else "".

(** ** The backup file *)

(** The object [downloadBackup] writes to the file. *)
Module Backup.
Record t := {
  version : string;
  timestamp : string;
  totalRecords : nat;
  surveys : list Survey
}.
End Backup.

(** [JSON.stringify] on a backup object, and [JSON.parse] on the text of a
    file as [restoreBackup] looks at its result. *)
Class BackupPlatform := {
  JSON_stringify_backup : Backup.t -> string;
  JSON_parse_backup : string -> BackupData
}.

(** The contract of the [JSON] object on backup objects: parsing the text
    written for one gives an object whose property [surveys] is the array
    of its records, each as [JSON] reads it back. *)
Class BackupLaws (B : BackupPlatform) : Prop := {
  JSON_parse_stringify_backup :
    forall b : Backup.t,
      JSON_parse_backup (JSON_stringify_backup b)
      = Parsed (Array (toJSON <$> Backup.surveys b))
}.


(** ** A session *)

(** What the user does between two starts: the buttons of [bindEvents], the
    edit and delete buttons of a displayed record, the file input of the
    backup dialog and the confirm button of the password dialog, each with
    what the inputs hold and what the user answers. *)
Inductive UserAction :=
  | ClickSave (form : Dom.Form) (now iso : string) (isNew : bool)
  | ClickSearch (inputs : Dom.Search)
  | ClickEdit (id0 : string)
  | ClickDelete (id0 : string) (confirmed : bool) (inputs : Dom.Search)
  | ChooseBackup (file : BackupFile) (confirmed : bool) (inputs : Dom.Search)
  | ConfirmClear (password : string) (inputs : Dom.Search).


(** ** A reference platform

    An implementation of the built-in functions that satisfies their
    contract, used to run the methods on concrete inputs: [parseInt] on
    decimal numerals, [trim] on ASCII white space, and a serialisation of
    record lists that is read back exactly. *)
Module Reference.

Definition is_space (c : ascii) : bool :=
  (nat_of_ascii c =? 32)%nat
  || ((9 <=? nat_of_ascii c)%nat && (nat_of_ascii c <=? 13)%nat).

Fixpoint skip_spaces (s : string) : string :=
  match s with
  | String c rest => if is_space c then skip_spaces rest else s
  | EmptyString => EmptyString
  end.

(** The value of the longest prefix of digits, read after [acc]; [None]
    when [s] does not start with a digit and nothing was read. *)
Fixpoint read_digits (acc : option Z) (s : string) : option Z :=
  match s with
  | String c rest =>
      if is_digit c
      then read_digits
             (Some (10 * default 0 acc + (Z.of_nat (nat_of_ascii c) - 48)))
             rest
      else acc
  | EmptyString => acc
  end.

Definition parseInt (s : string) : number :=
  match skip_spaces s with
  | String "-" rest =>
      match read_digits None rest with
      | Some z => Num (- z)
      | None => NaN
      end
  | String "+" rest =>
      match read_digits None rest with
      | Some z => Num z
      | None => NaN
      end
  | rest =>
      match read_digits None rest with
      | Some z => Num z
      | None => NaN
      end
  end.

Fixpoint drop_trailing_spaces (s : string) : string :=
  match s with
  | EmptyString => EmptyString
  | String c rest =>
      match drop_trailing_spaces rest with
      | EmptyString => if is_space c then EmptyString else String c EmptyString
      | kept => String c kept
      end
  end.

Definition trim (s : string) : string :=
  drop_trailing_spaces (skip_spaces s).

#[local] Instance number_countable : Countable number :=
  inj_countable'
    (fun n => match n with NaN => None | Num z => Some z end)
    (fun o => match o with None => NaN | Some z => Num z end)
    (fun n => match n with NaN => eq_refl | Num _ => eq_refl end).

#[local] Instance double_countable : Countable double :=
  inj_countable'
    (fun d => match d with Binary64 bits => bits end)
    Binary64
    (fun d => match d with Binary64 _ => eq_refl end).

#[local] Instance Location_countable : Countable Location :=
  inj_countable'
    (fun l => (latitude l, longitude l, accuracy l))
    (fun '(a, b, c) => {| latitude := a; longitude := b; accuracy := c |})
    (fun l => match l with Build_Location _ _ _ => eq_refl end).

#[local] Instance Livestock_countable : Countable Livestock :=
  inj_countable'
    (fun l => (buffalo l, cow l, goat l, sheep l))
    (fun '(a, b, c, d) =>
       {| buffalo := a; cow := b; goat := c; sheep := d |})
    (fun l => match l with Build_Livestock _ _ _ _ => eq_refl end).

#[local] Instance Transport_countable : Countable Transport :=
  inj_countable'
    (fun l => (motorcycle l, car l, van l, scooter l))
    (fun '(a, b, c, d) =>
       {| motorcycle := a; car := b; van := c; scooter := d |})
    (fun l => match l with Build_Transport _ _ _ _ => eq_refl end).

#[local] Instance Appliances_countable : Countable Appliances :=
  inj_countable'
    (fun l => (solar l, ac l, geyser l, washingMachine l, fridge l))
    (fun '(a, b, c, d, e) =>
       {| solar := a; ac := b; geyser := c; washingMachine := d;
          fridge := e |})
    (fun l => match l with Build_Appliances _ _ _ _ _ => eq_refl end).

#[local] Instance Survey_countable : Countable Survey :=
  inj_countable'
    (fun s =>
       (id s, blockCode s, houseNumber s, familiesCount s, xFamily s,
        houseCode s, respondentName s, hohName s, hohFatherName s,
        hohCnic s, maleMembers s, femaleMembers s, othersMembers s,
        totalMembers s, registerNumber s, location s, photo s,
        signature s, livestock s, transport s, appliances s,
        contactNumber s, timestamp s))
    (fun '(a1, a2, a3, a4, a5, a6, a7, a8, a9, a10, a11, a12, a13, a14,
           a15, a16, a17, a18, a19, a20, a21, a22, a23) =>
       {| id := a1; blockCode := a2; houseNumber := a3;
          familiesCount := a4; xFamily := a5; houseCode := a6;
          respondentName := a7; hohName := a8; hohFatherName := a9;
          hohCnic := a10; maleMembers := a11; femaleMembers := a12;
          othersMembers := a13; totalMembers := a14;
          registerNumber := a15; location := a16; photo := a17;
          signature := a18; livestock := a19; transport := a20;
          appliances := a21; contactNumber := a22; timestamp := a23 |})
    (fun s =>
       match s with
       | Build_Survey _ _ _ _ _ _ _ _ _ _ _ _ _ _ _ _ _ _ _ _ _ _ _ =>
           eq_refl
       end).

(** The binary digits of a code, lowest first. *)
Fixpoint digits (p : positive) : string :=
  match p with
  | xH => EmptyString
  | xO q => String "0" (digits q)
  | xI q => String "1" (digits q)
  end.

Fixpoint of_digits (s : string) : option positive :=
  match s with
  | EmptyString => Some xH
  | String c rest =>
      match of_digits rest with
      | Some q =>
          if Ascii.eqb c "0" then Some (xO q)
          else if Ascii.eqb c "1" then Some (xI q)
          else None
      | None => None
      end
  end.

Definition JSON_stringify (l : list Survey) : string :=
  String "[" (digits (encode (toJSON <$> l))).

Definition JSON_parse (text : string) : option (list Survey) :=
  match text with
  | String "[" rest =>
      match of_digits rest with
      | Some p => decode p
      | None => None
      end
  | _ => None
  end.

Definition platform : Platform :=
  Build_Platform parseInt trim JSON_stringify JSON_parse.

(** [toString] writes an integer in decimal. *)
Definition number_platform : NumberPlatform :=
  Build_NumberPlatform (fun z : Z => pretty z).

(** The text of a backup object is the text of its records. *)
Definition backup_platform : BackupPlatform :=
  Build_BackupPlatform
    (fun b => JSON_stringify (Backup.surveys b))
    (fun text =>
       match JSON_parse text with
       | Some l => Parsed (Array l)
       | None => Unparseable
       end).

End Reference.

(** ** Records and inputs for running the methods *)

Module Examples.

(** A record with the given id, house number and CNIC. *)
Definition survey (id0 : string) (house : Z) (cnic : string) : Survey :=
  {| id := id0;
     blockCode := "162030416";
     houseNumber := Some (Num house);
     familiesCount := Some (Num 1);
     xFamily := "no";
     houseCode := "";
     respondentName := "A";
     hohName := "B";
     hohFatherName := "C";
     hohCnic := cnic;
     maleMembers := 1;
     femaleMembers := 1;
     othersMembers := 0;
     totalMembers := 2;
     registerNumber := None;
     location := None;
     photo := None;
     signature := None;
     livestock := {| buffalo := 0; cow := 0; goat := 0; sheep := 0 |};
     transport :=
       {| motorcycle := 0; car := 0; van := 0; scooter := 0 |};
     appliances :=
       {| solar := 0; ac := 0; geyser := 0; washingMachine := 0;
          fridge := 0 |};
     contactNumber := "0345-1234567";
     timestamp := "2025-01-01T00:00:00.000Z" |}.

(** A form that passes [validateForm]. *)
Definition form (house : string) : Dom.Form :=
  {| Dom.blockCode := "162030416";
     Dom.houseNumber := house;
     Dom.familiesCount := "1";
     Dom.xFamily := None;
     Dom.houseCode := "";
     Dom.respondentName := "A";
     Dom.hohName := "B";
     Dom.hohFatherName := "C";
     Dom.hohCnic := "33301-1234567-1";
     Dom.maleMembers := "1";
     Dom.femaleMembers := "1";
     Dom.othersMembers := "0";
     Dom.totalMembers := "2";
     Dom.registerNumber := "";
     Dom.buffalo := "0";
     Dom.cow := "0";
     Dom.goat := "0";
     Dom.sheep := "0";
     Dom.motorcycle := "0";
     Dom.car := "0";
     Dom.van := "0";
     Dom.scooter := "0";
     Dom.solar := "0";
     Dom.ac := "0";
     Dom.geyser := "0";
     Dom.washingMachine := "0";
     Dom.fridge := "0";
     Dom.contactNumber := "0345-1234567" |}.

Definition no_search : Dom.Search :=
  {| Dom.searchHouseNumber := None; Dom.searchCnic := None |}.

(** A device on which every request succeeds, one whose database cannot be
    opened, one whose [localStorage] is full, and one with both defects. *)
Definition healthy : Env :=
  {| open_fails := false;
     getAll_fails := false;
     clear_fails := false;
     add_fails := fun _ => false;
     setItem_throws := fun _ => false |}.

Definition no_database : Env :=
  {| open_fails := true;
     getAll_fails := false;
     clear_fails := false;
     add_fails := fun _ => false;
     setItem_throws := fun _ => false |}.

Definition full_localStorage : Env :=
  {| open_fails := false;
     getAll_fails := false;
     clear_fails := false;
     add_fails := fun _ => false;
     setItem_throws := fun _ => true |}.


Definition empty_device : World :=
  {| objectStore := []; pserSurveys := None; trace := [] |}.

(** The application holding [l], with or without a database handle, on a
    device [w]. *)
Definition holding (db : option DbHandle) (edit : option string)
    (l : list Survey) (w : World) : State :=
  {| this := {| database := db;
                surveys := l;
                currentEditId := edit;
                currentLocation := None;
                currentPhoto := None;
                currentSignature := None;
                defaultBlockCode := "162030416" |};
     world := w |}.

(** Three records with distinct ids, and one that shares its id with the
    first but not its house number. *)
Definition s1 : Survey := survey "1" 101 "33301-9876543-1".
Definition s2 : Survey := survey "2" 102 "33302-7654321-2".
Definition s3 : Survey := survey "3" 103 "12345-0000000-3".

Definition iso : string := "2025-06-01T10:00:00.000Z".


(** The application holds two records, with a handle. *)
Definition two_records : State :=
  holding (Some PSERDatabase) None [s2; s1] empty_device.

(** The application holds the same two records without a handle, and a
    record whose house number was typed as [abc]. *)
Definition two_records_no_handle : State :=
  holding None None [s2; s1] empty_device.

Definition house_abc : State :=
  holding None None
    [getFormData (P := Reference.platform) new_PSERSurvey (form "abc")
       "1700" iso]
    empty_device.

(** The form is in edit mode for the first of two records. *)
Definition editing_first : State :=
  holding (Some PSERDatabase) (Some "1") [s1; s2] empty_device.

(** The form is in edit mode for the id 9, which no record carries (the
    record was deleted from the search results while it was being
    edited). *)
Definition editing_missing : State :=
  holding (Some PSERDatabase) (Some "9") [s1] empty_device.

(** The blob store holds a text that is not JSON. *)
Definition malformed_blob : State :=
  holding None None [s1]
    {| objectStore := []; pserSurveys := Some "{not json"; trace := [] |}.

(** The application holds three records. *)
Definition three_records : State :=
  holding (Some PSERDatabase) None [s1; s2; s3] empty_device.


Definition by_house_101 : Dom.Search :=
  {| Dom.searchHouseNumber := Some "101"; Dom.searchCnic := Some "" |}.

Definition by_cnic_12345 : Dom.Search :=
  {| Dom.searchHouseNumber := None; Dom.searchCnic := Some "123-45" |}.

(** A device whose object store refuses to be cleared, and one whose object
    store cannot be read. *)
Definition clear_refused : Env :=
  {| open_fails := false;
     getAll_fails := false;
     clear_fails := true;
     add_fails := fun _ => false;
     setItem_throws := fun _ => false |}.


(** The application holds the first two records, with a handle, on a device
    whose object store holds the third. *)
Definition stale_store : State :=
  holding (Some PSERDatabase) None [s1; s2]
    {| objectStore := [s3]; pserSurveys := None; trace := [] |}.

(** A form whose house number was left empty. *)
Definition no_house : Dom.Form := form "".

Definition by_house_101_and_cnic_12345 : Dom.Search :=
  {| Dom.searchHouseNumber := Some "101"; Dom.searchCnic := Some "12345" |}.

(** A record is saved, opened again and saved under its id, a backup with
    two records is restored, one of them is deleted, and the clearing of all
    data is tried with a wrong password. *)
Definition a_session : list UserAction :=
  [ClickSave (form "7") "1700" iso true;
   ClickEdit "1700";
   ClickSave (form "8") "1800" iso false;
   ChooseBackup (Content (Parsed (Array [s2; s1]))) true no_search;
   ClickDelete "2" true no_search;
   ConfirmClear "0000" no_search].

End Examples.

(** * Views of a state

    The contents of the two stores as the repository reads them, and the
    states the persistence methods leave. *)

Section Views.

Context {P : Platform}.

(** The blob store holds the list [l] when its item is the text written
    for [l]. *)
Definition FallbackStore_holds (l : list Survey) (w : World) : Prop :=
  pserSurveys w = Some (JSON_stringify l).

(** The list the blob store delivers: empty when the item is absent, empty
    or not parseable. *)
Definition FallbackStore_read (w : World) : list Survey :=
  match pserSurveys w with
  | None => []
  | Some text => if truthy text then default [] (JSON_parse text) else []
  end.


(** The state one call of [saveToLocalStorage] leaves. *)
Definition saved (env : Env) (st : State) : State :=
  let text := JSON_stringify (surveys (this st)) in
  {| this := this st;
     world :=
       {| objectStore := objectStore (world st);
          pserSurveys := if setItem_throws env text
                         then pserSurveys (world st) else Some text;
          trace := (trace (world st) ++ [SetItem text])
                   ++ (if setItem_throws env text
                       then [Alert "Error saving data. Please try again."]
                       else []) |} |}.

Definition with_objectStore (store : list Survey) (st : State) : State :=
  {| this := this st;
     world := {| objectStore := store;
                 pserSurveys := pserSurveys (world st);
                 trace := trace (world st) |} |}.

(** The state one call of [saveToDatabase] leaves. *)
Definition persisted (env : Env) (st : State) : State :=
  match database (this st) with
  | None => saved env st
  | Some _ =>
      if clear_fails env then Nat.iter 2 (saved env) st
      else
        match add_each env (surveys (this st)) [] with
        | inl store => saved env (with_objectStore store st)
        | inr pending => Nat.iter (2 + pending) (saved env) st
        end
  end.

Definition with_surveys (l : list Survey) (st : State) : State :=
  exec (set_surveys l) st.

Definition with_database (db : option DbHandle) (st : State) : State :=
  exec (set_database db) st.

(** The state [loadFromDatabase] leaves when it holds a handle and [getAll]
    succeeds. *)
Definition loaded_from_objectStore (env : Env) (st : State) : State :=
  let st' := with_surveys (objectStore (world st)) st in
  if (0 <? length (objectStore (world st)))%nat then saved env st' else st'.


(** The state after the events [evs] were shown or recorded. *)
Definition logged (evs : list Event) (st : State) : State :=
  {| this := this st;
     world := {| objectStore := objectStore (world st);
                 pserSurveys := pserSurveys (world st);
                 trace := trace (world st) ++ evs |} |}.

(** The number of entries of [l] with the id [k]. *)
Definition count_id (k : string) (l : list Survey) : nat :=
  length (List.filter (fun s => (id s =? k)%string) l).




(** A statement that completes normally and leaves [this] alone. *)
Definition keeps_this (m : M unit) : Prop :=
  forall st, exists st', m st = (Normal tt, st') /\ this st' = this st.

(** The values [validateForm] requires, in the order it visits them. *)
Definition required_values (form : Dom.Form) : list string :=
  fst <$> requiredFields form.

(** The forms [validateForm] accepts. *)
Definition form_ok (form : Dom.Form) : bool :=
  forallb (fun value => truthy (trim value)) (required_values form)
  && test cnic_pattern (Dom.hohCnic form)
  && test contact_pattern (Dom.contactNumber form).

(** What [searchSurvey] shows for the record list [l]. *)
Definition search_events (inputs : Dom.Search) (l : list Survey)
  : list Event :=
  match search_results inputs l with
  | None => [Alert "Please enter either House Number or CNIC Number to search"]
  | Some results => [Display results]
  end.

(** Both stores hold the in-memory list: the blob store its text, and, when
    the application has a handle, the object store its records. *)
Definition in_sync (st : State) : Prop :=
  FallbackStore_holds (surveys (this st)) (world st)
  /\ (database (this st) <> None ->
      objectStore (world st) ≡ₚ surveys (this st)).

(** The device answers every request of the two stores. *)
Definition reliable (env : Env) : Prop :=
  getAll_fails env = false
  /\ clear_fails env = false
  /\ (forall s, add_fails env s = false)
  /\ (forall v, setItem_throws env v = false).

(** The database opens, and the object store answers every request. *)
Definition objectStore_answers (env : Env) : Prop :=
  open_fails env = false
  /\ getAll_fails env = false
  /\ clear_fails env = false
  /\ (forall s, add_fails env s = false).

(** The order of the keys of the object store. *)
Definition id_lt (a b : Survey) : Prop := String.ltb (id a) (id b) = true.

Definition dispatch (env : Env) (a : UserAction) : M unit :=
  match a with
  | ClickSave form now iso isNew => saveSurvey env form now iso isNew
  | ClickSearch inputs => searchSurvey inputs
  | ClickEdit id0 => editSurvey id0
  | ClickDelete id0 confirmed inputs => deleteSurvey env id0 confirmed inputs
  | ChooseBackup file confirmed inputs =>
      restoreBackup env file confirmed inputs
  | ConfirmClear password inputs => confirmClearAll env password inputs
  end.

(** The handlers of a session, each one finished, with the transaction it
    started, before the next event arrives. *)
Fixpoint session (env : Env) (acts : list UserAction) : M unit :=
  match acts with
  | [] => ret tt
  | a :: rest => bind (dispatch env a) (fun _ => session env rest)
  end.

(** The ids that enter the list during a session are new: the time-based id
    of a save outside edit mode is not in the list, and a backup that is
    restored has pairwise distinct ids. *)
Fixpoint ids_fresh (env : Env) (acts : list UserAction) (st : State) : Prop :=
  match acts with
  | [] => True
  | a :: rest =>
      match a with
      | ClickSave _ now _ _ =>
          truthy_opt (currentEditId (this st)) = false ->
          now ∉ id <$> surveys (this st)
      | ChooseBackup (Content (Parsed (Array l))) true _ => NoDup (id <$> l)
      | _ => True
      end
      /\ ids_fresh env rest (exec (dispatch env a) st)
  end.

(** The application holds a handle, and the object store holds the records
    of the in-memory list, one per id. *)
Definition primary_in_line (st : State) : Prop :=
  database (this st) <> None
  /\ objectStore (world st) ≡ₚ surveys (this st)
  /\ NoDup (id <$> surveys (this st)).


End Views.

(** * Properties *)

(** ** The reference platform meets the contract *)

Lemma of_digits_digits (p : positive) :
  Reference.of_digits (Reference.digits p) = Some p.
Proof. induction p as [q IH|q IH|]; simpl; rewrite ?IH; reflexivity. Qed.

Lemma Reference_laws : PlatformLaws Reference.platform.
Proof.
  split; intros l; simpl; unfold Reference.JSON_stringify, Reference.JSON_parse.
  - rewrite of_digits_digits. apply decode_encode.
  - discriminate.
Qed.

(** The text written for a list is not needed digit by digit. *)
#[global] Opaque Reference.JSON_stringify.

(** ** The two stores, as the repository reads them *)

Section Stores.

Context {P : Platform}.

Lemma saveToLocalStorage_run env st :
  saveToLocalStorage env st = (Normal tt, saved env st).
Proof.
  unfold saveToLocalStorage, saved, try_catch, bind, get_this,
    localStorage_setItem, bind, log, alert, log, throw, put_pserSurveys.
  simpl. destruct (setItem_throws env _); simpl.
  - reflexivity.
  - rewrite app_nil_r. reflexivity.
Qed.


Lemma saved_objectStore env st :
  objectStore (world (saved env st)) = objectStore (world st).
Proof. reflexivity. Qed.

Lemma iter_saved_this env n st : this (Nat.iter n (saved env) st) = this st.
Proof. induction n as [|n IH]; simpl; [reflexivity | exact IH]. Qed.

Lemma iter_saved_objectStore env n st :
  objectStore (world (Nat.iter n (saved env) st)) = objectStore (world st).
Proof. induction n as [|n IH]; simpl; [reflexivity | exact IH]. Qed.

(** However often the blob is written in a row, the item ends as after the
    first write. *)
Lemma iter_saved_pserSurveys env n st :
  pserSurveys (world (Nat.iter (S n) (saved env) st))
  = pserSurveys (world (saved env st)).
Proof.
  induction n as [|n IH]; [reflexivity|].
  change (Nat.iter (S (S n)) (saved env) st)
    with (saved env (Nat.iter (S n) (saved env) st)).
  unfold saved at 1. cbn [world pserSurveys].
  rewrite iter_saved_this.
  destruct (setItem_throws env _) eqn:E.
  - exact IH.
  - unfold saved. cbn [world pserSurveys]. rewrite E. reflexivity.
Qed.


Lemma times_saveToLocalStorage_run env n st :
  times n (saveToLocalStorage env) st = (Normal tt, Nat.iter n (saved env) st).
Proof.
  revert st. induction n as [|n IH]; intros st; [reflexivity|].
  cbn [times]. unfold bind. rewrite saveToLocalStorage_run, IH.
  rewrite Nat.iter_succ_r. reflexivity.
Qed.

End Stores.

(** ** [saveToDatabase]: what one call leaves behind *)

Section Persist.

Context {P : Platform}.

Lemma saveToDatabase_transaction_run env st :
  saveToDatabase_transaction env st
  = (Normal tt,
     if clear_fails env then Nat.iter 2 (saved env) st
     else
       match add_each env (surveys (this st)) [] with
       | inl store => saved env (with_objectStore store st)
       | inr pending => Nat.iter (2 + pending) (saved env) st
       end).
Proof.
  unfold saveToDatabase_transaction.
  destruct (clear_fails env).
  - unfold bind. rewrite !saveToLocalStorage_run. reflexivity.
  - unfold bind, get_this.
    destruct (add_each env (surveys (this st)) []) as [store|pending].
    + unfold put_objectStore. rewrite saveToLocalStorage_run. reflexivity.
    + rewrite !saveToLocalStorage_run, times_saveToLocalStorage_run.
      rewrite <- !Nat.iter_succ_r. reflexivity.
Qed.

Lemma saveToDatabase_run env st :
  saveToDatabase env st = (Normal tt, persisted env st).
Proof.
  unfold saveToDatabase, persisted, bind, get_this.
  destruct (database (this st)).
  - apply saveToDatabase_transaction_run.
  - apply saveToLocalStorage_run.
Qed.

(** Every path through [saveToDatabase] ends in at least one call of
    [saveToLocalStorage], on the same record list. *)
Lemma persisted_iter env st :
  exists n store,
    persisted env st = Nat.iter (S n) (saved env) (with_objectStore store st).
Proof.
  assert (Hid : with_objectStore (objectStore (world st)) st = st)
    by (destruct st as [t [o p tr]]; reflexivity).
  unfold persisted. destruct (database (this st)).
  - destruct (clear_fails env).
    + exists 1%nat, (objectStore (world st)). rewrite Hid. reflexivity.
    + destruct (add_each env (surveys (this st)) []) as [store|pending].
      * exists 0%nat, store. reflexivity.
      * exists (S pending), (objectStore (world st)). rewrite Hid.
        reflexivity.
  - exists 0%nat, (objectStore (world st)). rewrite Hid. reflexivity.
Qed.

Lemma persisted_this env st : this (persisted env st) = this st.
Proof.
  destruct (persisted_iter env st) as (n & store & ->).
  rewrite iter_saved_this. reflexivity.
Qed.

Lemma persisted_pserSurveys env st :
  pserSurveys (world (persisted env st))
  = if setItem_throws env (JSON_stringify (surveys (this st)))
    then pserSurveys (world st)
    else Some (JSON_stringify (surveys (this st))).
Proof.
  destruct (persisted_iter env st) as (n & store & ->).
  rewrite iter_saved_pserSurveys. reflexivity.
Qed.


(** When the blob write is refused, the user is told. *)
Lemma persisted_alert env st :
  setItem_throws env (JSON_stringify (surveys (this st))) = true ->
  Alert "Error saving data. Please try again." ∈ trace (world (persisted env st)).
Proof.
  intros E. destruct (persisted_iter env st) as (n & store & ->).
  change (Nat.iter (S n) (saved env) (with_objectStore store st))
    with (saved env (Nat.iter n (saved env) (with_objectStore store st))).
  unfold saved at 1. cbn [world trace]. rewrite iter_saved_this.
  cbn [with_objectStore this]. rewrite E.
  apply elem_of_app. right. apply list_elem_of_singleton. reflexivity.
Qed.

Lemma persisted_objectStore_no_database env st :
  database (this st) = None ->
  objectStore (world (persisted env st)) = objectStore (world st).
Proof. intros E. unfold persisted. rewrite E. reflexivity. Qed.

End Persist.

(** ** Loading *)

Section Load.

Context {P : Platform}.

Lemma loadFromLocalStorage_run st :
  loadFromLocalStorage st
  = (Normal tt, with_surveys (FallbackStore_read (world st)) st).
Proof.
  unfold loadFromLocalStorage, FallbackStore_read, try_catch, bind,
    localStorage_getItem, bind, get_world, ret, JSON_parse_text.
  simpl. destruct (pserSurveys (world st)) as [text|]; simpl.
  - destruct (truthy text); simpl.
    + destruct (JSON_parse text); reflexivity.
    + reflexivity.
  - reflexivity.
Qed.

Lemma loadFromDatabase_run env st :
  loadFromDatabase env st
  = (Normal tt,
     match database (this st) with
     | None => with_surveys (FallbackStore_read (world st)) st
     | Some _ =>
         if getAll_fails env
         then with_surveys (FallbackStore_read (world st)) st
         else loaded_from_objectStore env st
     end).
Proof.
  unfold loadFromDatabase, bind, get_this.
  destruct (database (this st)).
  - destruct (getAll_fails env).
    + apply loadFromLocalStorage_run.
    + unfold loaded_from_objectStore, get_world, with_surveys, exec. simpl.
      destruct (0 <? length (objectStore (world st)))%nat.
      * apply saveToLocalStorage_run.
      * reflexivity.
  - apply loadFromLocalStorage_run.
Qed.

Lemma initDatabase_run env st :
  initDatabase env st
  = (Normal tt,
     if open_fails env
     then with_surveys (FallbackStore_read (world st)) st
     else if getAll_fails env
          then with_surveys (FallbackStore_read (world st))
                 (with_database (Some PSERDatabase) st)
          else loaded_from_objectStore env
                 (with_database (Some PSERDatabase) st)).
Proof.
  unfold initDatabase. destruct (open_fails env).
  - apply loadFromLocalStorage_run.
  - unfold bind. simpl. rewrite loadFromDatabase_run. reflexivity.
Qed.

Lemma loaded_from_objectStore_surveys env st :
  surveys (this (loaded_from_objectStore env st)) = objectStore (world st).
Proof.
  unfold loaded_from_objectStore.
  destruct (0 <? length (objectStore (world st)))%nat; reflexivity.
Qed.

(** Reading back what was written. *)
Lemma FallbackStore_read_holds {L : PlatformLaws P} l w :
  FallbackStore_holds l w -> FallbackStore_read w = toJSON <$> l.
Proof.
  unfold FallbackStore_holds, FallbackStore_read. intros ->.
  unfold truthy.
  destruct (String.eqb_spec (JSON_stringify l) "") as [E|_].
  - destruct (JSON_stringify_not_empty l E).
  - simpl. rewrite JSON_parse_stringify. reflexivity.
Qed.

Lemma map_toJSON_safe l : Forall json_safe l -> toJSON <$> l = l.
Proof.
  induction 1 as [|s l Hs _ IH]; [reflexivity|].
  rewrite fmap_cons, Hs, IH. reflexivity.
Qed.

End Load.

(** ** The blob store *)

Section FallbackStore.

Context {P : Platform}.

(** C8. [loadFromLocalStorage] (the read of the blob store) completes
    normally with the empty record list, and shows nothing to the user,
    whenever the item is absent or holds a text [JSON.parse] throws on. *)
Theorem loadFromLocalStorage_absent_or_malformed (st : State) :
  pserSurveys (world st) = None
  \/ (exists text, pserSurveys (world st) = Some text /\ JSON_parse text = None) ->
  completion loadFromLocalStorage st = Normal tt
  /\ surveys (this (exec loadFromLocalStorage st)) = []
  /\ world (exec loadFromLocalStorage st) = world st
  /\ FallbackStore_read (world st) = [].
Proof.
  intros H. unfold completion, exec. rewrite loadFromLocalStorage_run.
  assert (E : FallbackStore_read (world st) = []).
  { unfold FallbackStore_read.
    destruct H as [-> | (text & -> & ->)]; [reflexivity|].
    destruct (truthy text); reflexivity. }
  rewrite E. repeat split; reflexivity.
Qed.


(** A refused blob write leaves the item as it was and alerts the user. *)
Lemma saveToDatabase_refused (env : Env) (st : State) :
  setItem_throws env (JSON_stringify (surveys (this st))) = true ->
  completion (saveToDatabase env) st = Normal tt
  /\ pserSurveys (world (exec (saveToDatabase env) st)) = pserSurveys (world st)
  /\ Alert "Error saving data. Please try again."
       ∈ trace (world (exec (saveToDatabase env) st)).
Proof.
  intros E. unfold completion, exec. rewrite saveToDatabase_run. simpl.
  repeat split.
  - rewrite persisted_pserSurveys, E. reflexivity.
  - apply persisted_alert, E.
Qed.


End FallbackStore.

(** ** The structured store *)

Section ObjectStore.

Context {P : Platform} (env : Env).

Lemma insert_by_key_Permutation s store : insert_by_key s store ≡ₚ s :: store.
Proof.
  induction store as [|x store IH]; simpl; [reflexivity|].
  destruct (String.ltb (id s) (id x)); [reflexivity|].
  rewrite IH. apply Permutation_swap.
Qed.

Lemma has_key_false k store : has_key k store = false <-> k ∉ id <$> store.
Proof.
  unfold has_key. induction store as [|x store IH]; simpl.
  - split; [intros _; apply not_elem_of_nil | reflexivity].
  - rewrite orb_false_iff, IH, not_elem_of_cons.
    destruct (String.eqb_spec (id x) k) as [E|E]; split.
    + intros [? _]; discriminate.
    + intros [E' _]. destruct E'. symmetry. exact E.
    + intros [_ H]. split; [congruence | exact H].
    + intros [_ H]. split; [reflexivity | exact H].
Qed.

(** Records with pairwise distinct keys that the store does not hold yet
    are all added. *)
Lemma add_each_succeeds requests :
  forall store,
    (forall s, s ∈ requests -> add_fails env s = false) ->
    NoDup (id <$> requests) ->
    (forall s, s ∈ requests -> id s ∉ id <$> store) ->
    exists store',
      add_each env requests store = inl store' /\ store' ≡ₚ requests ++ store.
Proof.
  induction requests as [|s rest IH]; intros store Hadd Hnd Hfresh; simpl.
  - exists store. split; reflexivity.
  - rewrite fmap_cons in Hnd. apply NoDup_cons in Hnd as [Hs Hnd].
    unfold objectStore_add.
    rewrite (Hadd s) by apply list_elem_of_here.
    rewrite (proj2 (has_key_false (id s) store))
      by (apply Hfresh, list_elem_of_here).
    simpl.
    destruct (IH (insert_by_key s store)) as (store' & -> & Hperm).
    + intros s' Hs'. apply Hadd. apply list_elem_of_further, Hs'.
    + exact Hnd.
    + intros s' Hs'. rewrite insert_by_key_Permutation, fmap_cons.
      apply not_elem_of_cons. split.
      * intros E. apply Hs. rewrite <- E.
        apply list_elem_of_fmap_2, Hs'.
      * apply Hfresh, list_elem_of_further, Hs'.
    + exists store'. split; [reflexivity|].
      rewrite Hperm, insert_by_key_Permutation.
      symmetry. apply Permutation_middle.
Qed.

(** A record whose key is already among the requests before it makes the
    transaction fail. *)
Lemma add_each_duplicate s rest store :
  has_key (id s) store = true ->
  add_each env (s :: rest) store = inr (length rest).
Proof.
  intros H. simpl. unfold objectStore_add. rewrite H, orb_true_r.
  reflexivity.
Qed.

End ObjectStore.

(** ** Persisting and loading again *)

Section RoundTrip.

Context {P : Platform}.



(** Without a handle: the list is written to the blob store, and the next
    start, on which the database still does not open, parses it back. *)
Lemma round_trip_localStorage {L : PlatformLaws P} env st :
  database (this st) = None ->
  open_fails env = true ->
  setItem_throws env (JSON_stringify (surveys (this st))) = false ->
  surveys (this (exec (initDatabase env)
                   (start (world (exec (saveToDatabase env) st)))))
  = toJSON <$> surveys (this st).
Proof.
  intros Hdb Hopen Hset.
  unfold exec. rewrite saveToDatabase_run, initDatabase_run, Hopen.
  simpl. apply FallbackStore_read_holds.
  unfold FallbackStore_holds. rewrite persisted_pserSurveys, Hset.
  reflexivity.
Qed.


End RoundTrip.

(** ** Saving a survey *)

Section SaveSurvey.

Context {P : Platform} (env : Env).

Lemma logged_nil st : logged [] st = st.
Proof.
  destruct st as [t [o p tr]]. unfold logged. simpl.
  rewrite app_nil_r. reflexivity.
Qed.

Lemma check_required_run fields st :
  exists b evs,
    check_required fields st = (Normal b, logged evs st)
    /\ (b = true -> evs = []).
Proof.
  induction fields as [|[value fieldName] rest IH]; simpl.
  - exists true, []. rewrite logged_nil. split; reflexivity.
  - destruct (truthy (trim value)); [exact IH|].
    exists false, [Alert ("Please fill in " +:+ fieldName)].
    split; [reflexivity | discriminate].
Qed.

(** [validateForm] only shows alerts, and none when the form is valid. *)
Lemma validateForm_run form st :
  exists b evs,
    validateForm form st = (Normal b, logged evs st)
    /\ (b = true -> evs = []).
Proof.
  unfold validateForm, bind.
  destruct (check_required_run (requiredFields form) st)
    as (b & evs & -> & Hb).
  destruct b; cbn [negb].
  - rewrite (Hb eq_refl), logged_nil.
    destruct (test cnic_pattern (Dom.hohCnic form)); cbn [negb].
    + destruct (test contact_pattern (Dom.contactNumber form)); cbn [negb].
      * exists true, []. rewrite logged_nil. split; reflexivity.
      * eexists false, [_]. split; [reflexivity | discriminate].
    + eexists false, [_]. split; [reflexivity | discriminate].
  - exists false, evs. split; [reflexivity | discriminate].
Qed.

(** The state a valid save leaves. *)
Lemma saveSurvey_valid form now iso isNew st :
  completion (validateForm form) st = Normal true ->
  saveSurvey env form now iso isNew st
  = (Normal tt,
     let st' :=
       logged [Alert "Survey data saved successfully!"]
         (persisted env
            (with_surveys
               (store_surveyData (currentEditId (this st))
                  (getFormData (this st) form now iso) (surveys (this st)))
               st)) in
     if isNew then exec reset_edit st' else st').
Proof.
  unfold completion. intros Hv.
  destruct (validateForm_run form st) as (b & evs & E & Hb).
  rewrite E in Hv. simpl in Hv. injection Hv as ->.
  rewrite (Hb eq_refl), logged_nil in E.
  unfold saveSurvey, bind at 1. rewrite E. simpl.
  unfold bind, get_this. simpl.
  rewrite saveToDatabase_run. simpl.
  destruct isNew; reflexivity.
Qed.

(** An invalid form changes nothing but the alerts shown. *)
Lemma saveSurvey_invalid form now iso isNew st :
  completion (validateForm form) st <> Normal true ->
  exists evs, saveSurvey env form now iso isNew st = (Normal tt, logged evs st).
Proof.
  unfold completion. intros Hv.
  destruct (validateForm_run form st) as (b & evs & E & Hb).
  rewrite E in Hv. simpl in Hv.
  destruct b; [destruct Hv; reflexivity|].
  exists evs. unfold saveSurvey, bind. rewrite E. reflexivity.
Qed.

Lemma saveSurvey_completion form now iso isNew st :
  completion (saveSurvey env form now iso isNew) st = Normal tt.
Proof.
  destruct (completion (validateForm form) st) as [[|]|e] eqn:H.
  - unfold completion. rewrite (saveSurvey_valid _ _ _ _ _ H).
    reflexivity.
  - destruct (saveSurvey_invalid form now iso isNew st) as [evs E].
    + rewrite H. discriminate.
    + unfold completion. rewrite E. reflexivity.
  - destruct (saveSurvey_invalid form now iso isNew st) as [evs E].
    + rewrite H. discriminate.
    + unfold completion. rewrite E. reflexivity.
Qed.

Lemma saveSurvey_surveys_valid form now iso isNew st :
  completion (validateForm form) st = Normal true ->
  surveys (this (exec (saveSurvey env form now iso isNew) st))
  = store_surveyData (currentEditId (this st))
      (getFormData (this st) form now iso) (surveys (this st)).
Proof.
  intros H. unfold exec. rewrite (saveSurvey_valid _ _ _ _ _ H).
  destruct isNew; simpl; rewrite persisted_this; reflexivity.
Qed.

Lemma saveSurvey_surveys_invalid form now iso isNew st :
  completion (validateForm form) st <> Normal true ->
  surveys (this (exec (saveSurvey env form now iso isNew) st))
  = surveys (this st).
Proof.
  intros H. unfold exec.
  destruct (saveSurvey_invalid form now iso isNew st H) as [evs ->].
  reflexivity.
Qed.

End SaveSurvey.

(** ** The record list under saves *)

Section Upsert.

Context {P : Platform} (env : Env).

Lemma truthy_opt_Some e : truthy_opt (Some e) = true <-> e <> "".
Proof.
  unfold truthy_opt, truthy.
  destruct (String.eqb_spec e "") as [E|E]; simpl; split.
  - discriminate.
  - intros H. destruct (H E).
  - intros _. exact E.
  - reflexivity.
Qed.

Lemma findIndex_Some {A} (p : A -> bool) (l : list A) (i : nat) :
  findIndex p l = Some i ->
  exists x,
    l !! i = Some x /\ p x = true
    /\ forall j y, (j < i)%nat -> l !! j = Some y -> p y = false.
Proof.
  revert i. induction l as [|a l IH]; intros i; simpl; [discriminate|].
  destruct (p a) eqn:Ea.
  - intros [= <-]. exists a. repeat split; [exact Ea|]. intros j y Hj. lia.
  - destruct (findIndex p l) as [k|]; [|discriminate].
    intros [= <-]. destruct (IH k eq_refl) as (x & Hx & Hp & Hfirst).
    exists x. repeat split; [exact Hx | exact Hp |].
    intros [|j] y Hj Hy; simpl in Hy.
    + congruence.
    + apply (Hfirst j y); [lia | exact Hy].
Qed.

Lemma findIndex_None {A} (p : A -> bool) (l : list A) :
  findIndex p l = None <-> forall x, x ∈ l -> p x = false.
Proof.
  induction l as [|a l IH]; simpl.
  - split; [intros _ x Hx; inversion Hx | reflexivity].
  - destruct (p a) eqn:Ea.
    + split; [discriminate|]. intros H.
      rewrite (H a) in Ea by apply list_elem_of_here. discriminate.
    + destruct (findIndex p l) as [k|]; simpl.
      * split; [discriminate|]. intros H.
        assert (Some k = None) as E; [|discriminate E].
        apply IH. intros x Hx. apply H, list_elem_of_further, Hx.
      * split; [|reflexivity]. intros _ x Hx.
        apply elem_of_cons in Hx as [->|Hx]; [exact Ea|].
        apply (proj1 IH eq_refl x Hx).
Qed.

Lemma findIndex_id_None k (l : list Survey) :
  findIndex (fun s => (id s =? k)%string) l = None <-> k ∉ id <$> l.
Proof.
  rewrite findIndex_None. split.
  - intros H Hk. apply list_elem_of_fmap in Hk as (s & -> & Hs).
    specialize (H s Hs). rewrite String.eqb_refl in H. discriminate.
  - intros H s Hs. apply String.eqb_neq. intros E. apply H.
    rewrite <- E. apply list_elem_of_fmap_2, Hs.
Qed.

(** Overwriting an entry by a record with the same id keeps the ids. *)
Lemma ids_insert (l : list Survey) i r old :
  l !! i = Some old -> id old = id r -> id <$> <[i := r]> l = id <$> l.
Proof.
  intros Hi E. rewrite list_fmap_insert. apply list_insert_id.
  rewrite list_lookup_fmap, Hi. simpl. congruence.
Qed.

Lemma store_surveyData_new editId r l :
  truthy_opt editId = false -> store_surveyData editId r l = l ++ [r].
Proof. unfold store_surveyData. intros ->. reflexivity. Qed.

Lemma store_surveyData_edit_ids editId r l :
  truthy_opt editId = true ->
  id r = default "" editId ->
  id <$> store_surveyData editId r l = id <$> l.
Proof.
  unfold store_surveyData. intros -> E.
  destruct (findIndex _ l) as [i|] eqn:Ei; [|reflexivity].
  apply findIndex_Some in Ei as (old & Hi & Hp & _).
  apply String.eqb_eq in Hp. apply (ids_insert l i r old Hi). congruence.
Qed.

Lemma getFormData_id (t : PSERSurvey) form now iso :
  id (getFormData t form now iso)
  = if truthy_opt (currentEditId t) then default "" (currentEditId t)
    else now.
Proof. reflexivity. Qed.

(** The ids after one save, from the ids before: unchanged in edit mode,
    one more, the time-based one, outside it. *)
Lemma saveSurvey_ids form now iso isNew st :
  id <$> surveys (this (exec (saveSurvey env form now iso isNew) st))
  = id <$> surveys (this st)
  \/ (truthy_opt (currentEditId (this st)) = false
      /\ id <$> surveys (this (exec (saveSurvey env form now iso isNew) st))
         = (id <$> surveys (this st)) ++ [now]).
Proof.
  destruct (completion (validateForm form) st) as [[|]|e] eqn:Hv.
  - rewrite (saveSurvey_surveys_valid env _ _ _ _ _ Hv).
    destruct (truthy_opt (currentEditId (this st))) eqn:Ht.
    + left. apply store_surveyData_edit_ids; [exact Ht|].
      rewrite getFormData_id, Ht. reflexivity.
    + right. split; [reflexivity|].
      rewrite (store_surveyData_new _ _ _ Ht), fmap_app. simpl.
      rewrite Ht. reflexivity.
  - left. rewrite saveSurvey_surveys_invalid; [reflexivity|].
    rewrite Hv. discriminate.
  - left. rewrite saveSurvey_surveys_invalid; [reflexivity|].
    rewrite Hv. discriminate.
Qed.

Lemma editSurvey_surveys id0 st :
  surveys (this (exec (editSurvey id0) st)) = surveys (this st).
Proof.
  unfold exec, editSurvey.
  destruct (List.find _ (surveys (this st))); reflexivity.
Qed.






Lemma count_id_not_elem_of k (l : list Survey) :
  k ∉ id <$> l -> count_id k l = 0%nat.
Proof.
  unfold count_id. induction l as [|s l IH]; simpl; [reflexivity|].
  intros H. apply not_elem_of_cons in H as [Hs H].
  destruct (String.eqb_spec (id s) k); [congruence | exact (IH H)].
Qed.

End Upsert.

(** ** What [saveSurvey] does to the list *)

Section SaveSurveyProperties.

Context {P : Platform} (env : Env).

(** C2, as amended. A save with a valid form, in edit mode (an edit id is
    set): when a record with the edit id is in the list, the first such
    entry is overwritten by the submitted record, which carries the edit
    id, every other entry stays where it is and the length is unchanged;
    when none is, the list stays as it is. Outside edit mode the record,
    with its time-based id, is appended and the length grows by one,
    whether or not that id occurs in the list already. *)
Theorem saveSurvey_replaces_or_appends
    (st : State) (form : Dom.Form) (now iso : string) (isNew : bool) :
  completion (validateForm form) st = Normal true ->
  (forall e,
     currentEditId (this st) = Some e -> e <> "" ->
     e ∈ id <$> surveys (this st) ->
     exists i old,
       surveys (this st) !! i = Some old /\ id old = e
       /\ (forall j y, (j < i)%nat -> surveys (this st) !! j = Some y ->
                       id y <> e)
       /\ id (getFormData (this st) form now iso) = e
       /\ surveys (this (exec (saveSurvey env form now iso isNew) st))
          = <[i := getFormData (this st) form now iso]> (surveys (this st))
       /\ (forall j, j <> i ->
             surveys (this (exec (saveSurvey env form now iso isNew) st)) !! j
             = surveys (this st) !! j)
       /\ length (surveys (this (exec (saveSurvey env form now iso isNew) st)))
          = length (surveys (this st)))
  /\ (forall e,
        currentEditId (this st) = Some e -> e <> "" ->
        e ∉ id <$> surveys (this st) ->
        surveys (this (exec (saveSurvey env form now iso isNew) st))
        = surveys (this st))
  /\ (truthy_opt (currentEditId (this st)) = false ->
      id (getFormData (this st) form now iso) = now
      /\ surveys (this (exec (saveSurvey env form now iso isNew) st))
         = surveys (this st) ++ [getFormData (this st) form now iso]
      /\ length (surveys (this (exec (saveSurvey env form now iso isNew) st)))
         = S (length (surveys (this st)))).
Proof.
  intros Hv. rewrite (saveSurvey_surveys_valid env _ _ _ _ _ Hv).
  split; [|split].
  - intros e He Hne Hin.
    assert (Ht : truthy_opt (currentEditId (this st)) = true)
      by (rewrite He; apply truthy_opt_Some, Hne).
    unfold store_surveyData. rewrite Ht, He. simpl default.
    destruct (findIndex (fun s => (id s =? e)%string) (surveys (this st)))
      as [i|] eqn:Ei.
    + destruct (findIndex_Some _ _ _ Ei) as (old & Hi & Hp & Hfirst).
      exists i, old. split; [exact Hi|].
      split; [apply String.eqb_eq, Hp|].
      split.
      { intros j y Hj Hy. apply String.eqb_neq. exact (Hfirst j y Hj Hy). }
      split; [rewrite getFormData_id, Ht, He; reflexivity|].
      split; [reflexivity|].
      split; [intros j Hj; apply list_lookup_insert_ne; congruence|].
      apply length_insert.
    + apply findIndex_id_None in Ei. destruct (Ei Hin).
  - intros e He Hne Hout.
    assert (Ht : truthy_opt (currentEditId (this st)) = true)
      by (rewrite He; apply truthy_opt_Some, Hne).
    unfold store_surveyData. rewrite Ht, He. simpl default.
    rewrite (proj2 (findIndex_id_None e (surveys (this st))) Hout).
    reflexivity.
  - intros Ht. rewrite (store_surveyData_new _ _ _ Ht).
    split; [rewrite getFormData_id, Ht; reflexivity|].
    split; [reflexivity|].
    rewrite length_app. simpl. lia.
Qed.



End SaveSurveyProperties.

(** ** Search *)

Section Search.

Context {P : Platform}.




Lemma elem_of_filter {A} (p : A -> bool) (l : list A) (x : A) :
  x ∈ List.filter p l <-> x ∈ l /\ p x = true.
Proof. rewrite !list_elem_of_In. apply filter_In. Qed.


End Search.

(** ** Delete and restore *)

Section DeleteRestore.

Context {P : Platform} (env : Env).

Lemma keeps_this_bind (m k : M unit) :
  keeps_this m -> keeps_this k -> keeps_this (bind m (fun _ => k)).
Proof.
  intros Hm Hk st. unfold bind.
  destruct (Hm st) as (st1 & -> & E1).
  destruct (Hk st1) as (st2 & -> & E2).
  exists st2. split; [reflexivity | congruence].
Qed.

Lemma keeps_this_saveToLocalStorage : keeps_this (saveToLocalStorage env).
Proof.
  intros st. exists (saved env st).
  split; [apply saveToLocalStorage_run | reflexivity].
Qed.


Lemma keeps_this_saveToDatabase_now : keeps_this (saveToDatabase_now env).
Proof.
  intros st. unfold saveToDatabase_now, bind, get_this.
  destruct (database (this st)).
  - exists st. split; reflexivity.
  - apply keeps_this_saveToLocalStorage.
Qed.

Lemma keeps_this_saveToDatabase_later : keeps_this (saveToDatabase_later env).
Proof.
  intros st. unfold saveToDatabase_later, bind, get_this.
  destruct (database (this st)) eqn:E.
  - rewrite saveToDatabase_transaction_run. eexists. split; [reflexivity|].
    pose proof (persisted_this env st) as H. unfold persisted in H.
    rewrite E in H. exact H.
  - exists st. split; reflexivity.
Qed.

Lemma keeps_this_alert msg : keeps_this (alert msg).
Proof. intros st. eexists. split; reflexivity. Qed.

Lemma keeps_this_searchSurvey inputs : keeps_this (searchSurvey inputs).
Proof.
  intros st. unfold searchSurvey, bind, get_this.
  destruct (search_results inputs (surveys (this st)));
    eexists; split; reflexivity.
Qed.

(** The state [deleteSurvey] leaves holds the filtered list. *)
Lemma deleteSurvey_confirmed id0 inputs st :
  exists st',
    deleteSurvey env id0 true inputs st = (Normal tt, st')
    /\ this st'
       = this (with_surveys
                 (List.filter (fun s => negb (id s =? id0)%string)
                    (surveys (this st)))
                 st).
Proof.
  unfold deleteSurvey, bind at 1, get_this, bind at 1.
  change (set_surveys ?l st) with (Normal tt, with_surveys l st).
  cbv iota beta.
  apply (keeps_this_bind _ _ keeps_this_saveToLocalStorage).
  apply (keeps_this_bind _ _ keeps_this_saveToDatabase_now).
  apply (keeps_this_bind _ _ (keeps_this_searchSurvey inputs)).
  apply (keeps_this_bind _ _ (keeps_this_alert _)).
  apply keeps_this_saveToDatabase_later.
Qed.

(** An awaited [saveToDatabase] does what the two parts of an un-awaited
    one do, one after the other. *)
Lemma saveToDatabase_now_later st :
  saveToDatabase env st
  = bind (saveToDatabase_now env) (fun _ => saveToDatabase_later env) st.
Proof.
  unfold saveToDatabase, saveToDatabase_now, saveToDatabase_later, bind,
    get_this, ret.
  destruct (database (this st)) eqn:E.
  - rewrite E. reflexivity.
  - rewrite saveToLocalStorage_run. simpl. rewrite E. reflexivity.
Qed.

(** Only [initDatabase] sets the handle: the handlers of the form, of the
    search results and of the backup dialog leave it as it is, so that an
    application that started without a handle stays without one. *)
Lemma restoreBackup_not_array field confirmed inputs st :
  Array_isArray field = false ->
  restoreBackup env (Content (Parsed field)) confirmed inputs st
  = (Normal tt,
     logged [Alert "Error restoring backup. Please check the file format."]
       st).
Proof.
  intros H. unfold restoreBackup, restoreBackup_onload, try_catch, bind, ret,
    throw.
  rewrite H, orb_true_r. reflexivity.
Qed.



Lemma confirmClearAll_cleared inputs st :
  exists st',
    confirmClearAll env "1234" inputs st = (Normal tt, st')
    /\ this st' = this (with_surveys [] st).
Proof.
  destruct (keeps_this_bind _ _ keeps_this_saveToLocalStorage
              (keeps_this_bind _ _ keeps_this_saveToDatabase_now
                 (keeps_this_bind _ _
                    (keeps_this_alert
                       "All data has been cleared successfully!")
                    (keeps_this_bind _ _ (keeps_this_searchSurvey inputs)
                       keeps_this_saveToDatabase_later)))
              (with_surveys [] st)) as (st' & E & Ht).
  exists st'. split; [|exact Ht].
  unfold confirmClearAll. cbn [String.eqb Ascii.eqb Bool.eqb].
  unfold bind at 1.
  change (set_surveys [] st) with (Normal tt, with_surveys [] st).
  cbv iota beta. exact E.
Qed.



Lemma filter_other_ids id0 (l : list Survey) :
  id0 ∉ id <$> l ->
  List.filter (fun s => negb (id s =? id0)%string) l = l.
Proof.
  induction l as [|s l IH]; simpl; [reflexivity|].
  intros H. apply not_elem_of_cons in H as [Hs H].
  destruct (String.eqb_spec (id s) id0); [congruence|].
  simpl. rewrite (IH H). reflexivity.
Qed.

(** C9. [deleteSurvey(id)], once the user has confirmed the dialog,
    completes normally and leaves the list without the records carrying
    that id, every other record staying in place and in order; when no
    record carries the id, the list is the same as before, in length and in
    contents. *)
Theorem deleteSurvey_removes (st : State) (id0 : string) (inputs : Dom.Search) :
  completion (deleteSurvey env id0 true inputs) st = Normal tt
  /\ surveys (this (exec (deleteSurvey env id0 true inputs) st))
     = List.filter (fun s => negb (id s =? id0)%string) (surveys (this st))
  /\ (forall r,
        r ∈ surveys (this (exec (deleteSurvey env id0 true inputs) st))
        <-> r ∈ surveys (this st) /\ id r <> id0)
  /\ (id0 ∉ id <$> surveys (this st) ->
      surveys (this (exec (deleteSurvey env id0 true inputs) st))
      = surveys (this st)
      /\ length (surveys (this (exec (deleteSurvey env id0 true inputs) st)))
         = length (surveys (this st))).
Proof.
  destruct (deleteSurvey_confirmed id0 inputs st) as (st' & E & Ht).
  unfold completion, exec. rewrite E. simpl. rewrite Ht. simpl.
  split; [reflexivity|]. split; [reflexivity|]. split.
  - intros r. rewrite elem_of_filter, negb_true_iff, String.eqb_neq.
    reflexivity.
  - intros H. rewrite (filter_other_ids id0 _ H). split; reflexivity.
Qed.

(** Declining the dialog leaves everything as it is. *)
Lemma deleteSurvey_declined (st : State) (id0 : string) (inputs : Dom.Search) :
  deleteSurvey env id0 false inputs st = (Normal tt, st).
Proof. reflexivity. Qed.

(** C6. Restoring from a file whose parsed content has no [surveys]
    property, or one that is not an array, is answered by the alert about
    the file format; nothing else happens: the record list, the rest of
    [this] and both stores are as before, whatever the user would have
    answered to the confirmation. *)
Theorem restoreBackup_rejects_malformed
    (st : State) (field : SurveysField) (confirmed : bool)
    (inputs : Dom.Search) :
  Array_isArray field = false ->
  completion (restoreBackup env (Content (Parsed field)) confirmed inputs) st
  = Normal tt
  /\ exec (restoreBackup env (Content (Parsed field)) confirmed inputs) st
     = logged [Alert "Error restoring backup. Please check the file format."]
         st
  /\ surveys
       (this (exec (restoreBackup env (Content (Parsed field)) confirmed
                      inputs) st))
     = surveys (this st).
Proof.
  intros H. unfold completion, exec.
  rewrite (restoreBackup_not_array _ _ _ _ H). repeat split; reflexivity.
Qed.

(** A file that is not JSON at all, or whose content is [null], is answered
    in the same way. *)
Lemma restoreBackup_rejects_unparseable
    (st : State) (data : BackupData) (confirmed : bool)
    (inputs : Dom.Search) :
  data = Unparseable \/ data = ParsedNull ->
  restoreBackup env (Content data) confirmed inputs st
  = (Normal tt,
     logged [Alert "Error restoring backup. Please check the file format."]
       st).
Proof. intros [-> | ->]; reflexivity. Qed.

End DeleteRestore.

(** ** The input handlers *)

Section Formats.

Lemma length_append (a b : string) :
  String.length (a +:+ b) = (String.length a + String.length b)%nat.
Proof.
  induction a as [|c a IH]; simpl; [reflexivity|].
  rewrite IH. reflexivity.
Qed.

Lemma substring_to_from n s : substring_to n s +:+ substring_from n s = s.
Proof.
  revert s. induction n as [|n IH]; intros [|c s]; try reflexivity.
  cbn [substring_to substring_from].
  change (String c ?a +:+ ?b) with (String c (a +:+ b)).
  f_equal. apply IH.
Qed.

Lemma length_substring_to n s :
  String.length (substring_to n s) = Nat.min n (String.length s).
Proof.
  revert s. induction n as [|n IH]; intros [|c s]; simpl; try reflexivity.
  rewrite IH. reflexivity.
Qed.

Lemma digits_only_append a b :
  digits_only (a +:+ b) = digits_only a +:+ digits_only b.
Proof.
  induction a as [|c a IH]; simpl; [reflexivity|].
  destruct (is_digit c); simpl; rewrite IH; reflexivity.
Qed.

Lemma digits_only_idemp s : digits_only (digits_only s) = digits_only s.
Proof.
  induction s as [|c s IH]; simpl; [reflexivity|].
  destruct (is_digit c) eqn:E; simpl; rewrite ?E, IH; reflexivity.
Qed.

Lemma length_digits_only_le s :
  (String.length (digits_only s) <= String.length s)%nat.
Proof.
  induction s as [|c s IH]; simpl; [lia|].
  destruct (is_digit c); simpl; lia.
Qed.

(** Inserting a dash into a string of digits leaves its digits. *)
Lemma digits_only_dash n d :
  digits_only d = d ->
  digits_only (substring_to n d +:+ "-" +:+ substring_from n d) = d.
Proof.
  intros Hd. rewrite !digits_only_append.
  change (digits_only "-" +:+ ?x) with x.
  rewrite <- digits_only_append, substring_to_from. exact Hd.
Qed.

Lemma test_length p s : test p s = true -> String.length s = length p.
Proof.
  revert s. induction p as [|[|l] p IH]; intros [|c s]; simpl;
    try discriminate; try reflexivity;
    rewrite andb_true_iff; intros [_ H]; rewrite (IH s H); reflexivity.
Qed.

Lemma test_digits p s :
  test p s = true ->
  String.length (digits_only s) = length (List.filter atom_is_digit p).
Proof.
  revert s. induction p as [|[|l] p IH]; intros [|c s]; simpl;
    try discriminate; try reflexivity;
    rewrite andb_true_iff; intros [Hc H].
  - rewrite Hc. simpl. rewrite (IH s H). reflexivity.
  - apply Ascii.eqb_eq in Hc as <-.
    destruct (is_digit l); simpl; rewrite (IH s H); reflexivity.
Qed.

Lemma format_cnic_dashed typed :
  format_cnic typed
  = if (String.length (digits_only typed) <=? 13)%nat
    then dashed_cnic (digits_only typed) else typed.
Proof. reflexivity. Qed.

Lemma digits_only_dashed_cnic d :
  digits_only d = d -> digits_only (dashed_cnic d) = d.
Proof.
  intros Hd. unfold dashed_cnic.
  destruct (5 <? String.length d)%nat.
  - destruct (13 <? _)%nat.
    + rewrite !digits_only_append.
      change (digits_only "-" +:+ ?x) with x.
      rewrite <- digits_only_append, substring_to_from.
      apply digits_only_dash, Hd.
    + apply digits_only_dash, Hd.
  - destruct (13 <? _)%nat; [|exact Hd].
    apply digits_only_dash, Hd.
Qed.

Lemma length_dashed_cnic d :
  (String.length d <= 13)%nat ->
  String.length (dashed_cnic d)
  = if (String.length d <=? 5)%nat then String.length d
    else if (String.length d <=? 12)%nat then S (String.length d)
    else (String.length d + 2)%nat.
Proof.
  intros Hle. unfold dashed_cnic.
  assert (Hlen : forall n s,
            String.length (substring_to n s +:+ "-" +:+ substring_from n s)
            = S (String.length s)).
  { intros n s. rewrite <- (substring_to_from n s) at 3.
    rewrite !length_append. simpl. lia. }
  destruct (Nat.ltb_spec 5 (String.length d)) as [H5|H5].
  - rewrite !Hlen.
    destruct (Nat.leb_spec (String.length d) 5); [lia|].
    destruct (Nat.ltb_spec 13 (S (String.length d)));
      destruct (Nat.leb_spec (String.length d) 12);
      repeat rewrite Hlen; lia.
  - destruct (Nat.leb_spec (String.length d) 5); [|lia].
    destruct (Nat.ltb_spec 13 (String.length d)); [lia | reflexivity].
Qed.

Lemma all_digits_digits_only s : all_digits (digits_only s) = true.
Proof.
  induction s as [|c s IH]; simpl; [reflexivity|].
  destruct (is_digit c) eqn:E; simpl; rewrite ?E; exact IH.
Qed.

Lemma all_digits_fixed d : all_digits d = true -> digits_only d = d.
Proof.
  induction d as [|c d IH]; simpl; [reflexivity|].
  rewrite andb_true_iff. intros [-> H]. rewrite (IH H). reflexivity.
Qed.

Ltac next_char d :=
  let c := fresh "c" in
  destruct d as [|c d]; [discriminate|].

Lemma test_dashed_cnic d :
  all_digits d = true -> String.length d = 13%nat ->
  test cnic_pattern (dashed_cnic d) = true.
Proof.
  intros Hd Hlen.
  do 13 (next_char d). destruct d; [|discriminate].
  cbn [all_digits] in Hd. rewrite !andb_true_iff in Hd.
  destruct Hd as (? & ? & ? & ? & ? & ? & ? & ? & ? & ? & ? & ? & ? & _).
  cbv -[is_digit].
  repeat match goal with
         | H : is_digit _ = true |- _ => rewrite H; clear H
         end.
  reflexivity.
Qed.

(** X1. What the input handler of the CNIC field makes of a typed text
    passes the CNIC check of [validateForm] (five digits, a dash, seven
    digits, a dash, one digit) exactly when the text holds 13 digits,
    whatever else it holds. *)
Theorem format_cnic_accepted (typed : string) :
  test cnic_pattern (format_cnic typed) = true
  <-> String.length (digits_only typed) = 13%nat.
Proof.
  rewrite format_cnic_dashed. split.
  - destruct (Nat.leb_spec (String.length (digits_only typed)) 13) as [Hle|Hgt].
    + intros H. apply test_length in H.
      rewrite (length_dashed_cnic _ Hle) in H.
      change (length cnic_pattern) with 15%nat in H.
      destruct (Nat.leb_spec (String.length (digits_only typed)) 5);
        destruct (Nat.leb_spec (String.length (digits_only typed)) 12); lia.
    + intros H. apply test_digits in H. exact H.
  - intros H. rewrite H.
    change (13 <=? 13)%nat with true. cbv iota.
    apply test_dashed_cnic; [apply all_digits_digits_only | exact H].
Qed.

Lemma digits_only_format_cnic typed :
  digits_only (format_cnic typed) = digits_only typed.
Proof.
  rewrite format_cnic_dashed.
  destruct (String.length (digits_only typed) <=? 13)%nat; [|reflexivity].
  apply digits_only_dashed_cnic, digits_only_idemp.
Qed.

(** X2. The input handler of the CNIC field keeps the digits of the typed
    text, in order, and applied to its own result it changes nothing: the
    handler runs on every input event, also on the text it has written
    itself. *)
Theorem format_cnic_keeps_digits (typed : string) :
  digits_only (format_cnic typed) = digits_only typed
  /\ format_cnic (format_cnic typed) = format_cnic typed.
Proof.
  split; [apply digits_only_format_cnic|].
  rewrite (format_cnic_dashed (format_cnic typed)), digits_only_format_cnic.
  rewrite format_cnic_dashed.
  destruct (String.length (digits_only typed) <=? 13)%nat eqn:E; reflexivity.
Qed.

Lemma format_contact_dashed typed :
  format_contact typed
  = if (String.length (contact_digits typed) <=? 11)%nat
    then dashed_contact (contact_digits typed) else typed.
Proof.
  unfold format_contact, contact_digits, dashed_contact.
  destruct (starts_with "3" (digits_only typed)); reflexivity.
Qed.

Lemma all_digits_contact_digits typed :
  all_digits (contact_digits typed) = true.
Proof.
  unfold contact_digits.
  destruct (starts_with "3" (digits_only typed)); simpl;
    apply all_digits_digits_only.
Qed.

Lemma length_dashed_contact d :
  String.length (dashed_contact d)
  = if (4 <? String.length d)%nat then S (String.length d)
    else String.length d.
Proof.
  unfold dashed_contact. destruct (4 <? String.length d)%nat; [|reflexivity].
  rewrite <- (substring_to_from 4 d) at 3.
  rewrite !length_append. simpl. lia.
Qed.

Lemma test_dashed_contact d :
  all_digits d = true -> String.length d = 11%nat ->
  test contact_pattern (dashed_contact d) = starts_with "03" d.
Proof.
  intros Hd Hlen.
  do 11 (next_char d). destruct d; [|discriminate].
  cbn [all_digits] in Hd. rewrite !andb_true_iff in Hd.
  destruct Hd as (? & ? & ? & ? & ? & ? & ? & ? & ? & ? & ? & _).
  cbv -[is_digit Ascii.eqb].
  repeat match goal with H : is_digit _ = true |- _ => rewrite H; clear H end.
  destruct ("0" =? c)%char; destruct ("3" =? c0)%char; reflexivity.
Qed.

(** The digits after the handler has put the leading zero, from the digits
    typed. *)
Lemma contact_digits_03 typed :
  String.length (contact_digits typed) = 11%nat
  /\ starts_with "03" (contact_digits typed) = true
  <-> (String.length (digits_only typed) = 11%nat
       /\ starts_with "03" (digits_only typed) = true)
      \/ (String.length (digits_only typed) = 10%nat
          /\ starts_with "3" (digits_only typed) = true).
Proof.
  unfold contact_digits.
  destruct (starts_with "3" (digits_only typed)) eqn:E3.
  - assert (E03 : starts_with "03" (digits_only typed) = false).
    { destruct (digits_only typed) as [|c d]; [reflexivity|].
      cbn [starts_with] in E3.
      destruct (Ascii.eqb_spec "3" c) as [<-|]; [reflexivity|].
      discriminate E3. }
    change (starts_with "03" ("0" +:+ ?d)) with (starts_with "3" d).
    change (String.length ("0" +:+ ?d)) with (S (String.length d)).
    rewrite E3, E03. split.
    + intros [H _]. right. split; [lia | reflexivity].
    + intros [[_ H]|[H _]]; [discriminate|]. split; [lia | reflexivity].
  - split.
    + intros H. left. exact H.
    + intros [H|[_ H]]; [exact H | discriminate].
Qed.

(** X3. What the input handler of the contact field makes of a typed text
    passes the contact check of [validateForm] ([03], two digits, a dash,
    seven digits) exactly when the text holds 11 digits that start with
    [03], or 10 digits that start with [3] (the handler puts the [0]). *)
Theorem format_contact_accepted (typed : string) :
  test contact_pattern (format_contact typed) = true
  <-> (String.length (digits_only typed) = 11%nat
       /\ starts_with "03" (digits_only typed) = true)
      \/ (String.length (digits_only typed) = 10%nat
          /\ starts_with "3" (digits_only typed) = true).
Proof.
  rewrite <- contact_digits_03, format_contact_dashed. split.
  - destruct (Nat.leb_spec (String.length (contact_digits typed)) 11)
      as [Hle|Hgt].
    + intros H. pose proof (test_length _ _ H) as Hl.
      rewrite length_dashed_contact in Hl.
      change (length contact_pattern) with 12%nat in Hl.
      assert (Hlen : String.length (contact_digits typed) = 11%nat).
      { destruct (Nat.ltb_spec 4 (String.length (contact_digits typed))); lia. }
      split; [exact Hlen|].
      rewrite <- (test_dashed_contact _ (all_digits_contact_digits typed) Hlen).
      exact H.
    + intros H. exfalso.
      pose proof (test_digits _ _ H) as Hd.
      change (length (List.filter atom_is_digit contact_pattern))
        with 11%nat in Hd.
      assert (E3 : starts_with "3" (digits_only typed) = false).
      { destruct typed as [|c typed]; [discriminate H|].
        cbn [contact_pattern app test] in H.
        apply andb_true_iff in H as [Hc _].
        apply Ascii.eqb_eq in Hc as <-. reflexivity. }
      unfold contact_digits in Hgt. rewrite E3 in Hgt. lia.
  - intros [Hlen H03]. rewrite Hlen.
    change (11 <=? 11)%nat with true. cbv iota.
    rewrite (test_dashed_contact _ (all_digits_contact_digits typed) Hlen).
    exact H03.
Qed.

(** X4. The input handler of the contact field, applied to its own result,
    changes nothing: no second zero is put in front and no second dash is
    inserted. *)
Theorem format_contact_idempotent (typed : string) :
  format_contact (format_contact typed) = format_contact typed.
Proof.
  rewrite (format_contact_dashed typed).
  destruct (String.length (contact_digits typed) <=? 11)%nat eqn:E.
  - assert (Hd : digits_only (dashed_contact (contact_digits typed))
                 = contact_digits typed).
    { unfold dashed_contact.
      destruct (4 <? _)%nat;
        [apply digits_only_dash|];
        apply all_digits_fixed, all_digits_contact_digits. }
    assert (H3 : starts_with "3" (contact_digits typed) = false).
    { unfold contact_digits.
      destruct (starts_with "3" (digits_only typed)) eqn:E3;
        [reflexivity | exact E3]. }
    assert (Hc : contact_digits (dashed_contact (contact_digits typed))
                 = contact_digits typed).
    { set (d := contact_digits typed) in *. unfold contact_digits.
      rewrite Hd, H3. reflexivity. }
    rewrite format_contact_dashed, Hc, E. reflexivity.
  - rewrite format_contact_dashed, E. reflexivity.
Qed.

End Formats.

(** ** The house code *)

Section HouseCode.

Context {P : Platform} {NP : NumberPlatform}.

Lemma append_cons c (a b : string) : String c a +:+ b = String c (a +:+ b).
Proof. reflexivity. Qed.

Lemma append_nil_l (b : string) : "" +:+ b = b.
Proof. reflexivity. Qed.

Lemma append_assoc (a b c : string) : (a +:+ b) +:+ c = a +:+ (b +:+ c).
Proof.
  induction a as [|x a IH]; [reflexivity|].
  rewrite !append_cons, IH. reflexivity.
Qed.

Lemma append_nil_r (a : string) : a +:+ "" = a.
Proof.
  induction a as [|x a IH]; [reflexivity|].
  rewrite append_cons, IH. reflexivity.
Qed.

Lemma generateHouseCode_suffix houseNumberValue familiesValue isXFamily :
  generateHouseCode houseNumberValue familiesValue isXFamily
  = if (0 <? or_zero (parseInt houseNumberValue))%Z then
      padStart 4 "0" (Number_toString (or_zero (parseInt houseNumberValue)))
      +:+ family_suffix (or_zero (parseInt familiesValue)) isXFamily
    else "".
Proof.
  unfold generateHouseCode, family_suffix.
  destruct (0 <? or_zero (parseInt houseNumberValue))%Z; [|reflexivity].
  destruct ((0 <? or_zero (parseInt familiesValue))%Z
            && (or_zero (parseInt familiesValue) <=? 26)%Z).
  - destruct isXFamily.
    + rewrite !append_assoc. reflexivity.
    + rewrite !append_nil_r. reflexivity.
  - rewrite append_nil_r. reflexivity.
Qed.

Lemma all_digits_append a b :
  all_digits (a +:+ b) = all_digits a && all_digits b.
Proof.
  induction a as [|c a IH]; [reflexivity|].
  rewrite append_cons. cbn [all_digits]. rewrite IH, andb_assoc. reflexivity.
Qed.

Lemma is_digit_pretty_N_char n : is_digit (pretty_N_char n) = true.
Proof.
  unfold pretty_N_char.
  destruct n as [|[[[[|[]|]|[]|]|[[]|[]|]|]|[[[]|[]|]|[[]|[]|]|]|]];
    reflexivity.
Qed.

Lemma pretty_N_char_zero n :
  (0 < n < 10)%N -> pretty_N_char n <> "0"%char.
Proof.
  intros Hn.
  assert (n = 1 \/ n = 2 \/ n = 3 \/ n = 4 \/ n = 5 \/ n = 6
          \/ n = 7 \/ n = 8 \/ n = 9)%N as H by lia.
  destruct H as [->|[->|[->|[->|[->|[->|[->|[->| ->]]]]]]]]; discriminate.
Qed.

(** A decimal numeral starts with a digit other than [0]. *)
Lemma pretty_N_go_digits x s :
  (0 < x)%N ->
  exists c d,
    pretty_N_go x s = String c (d +:+ s)
    /\ is_digit c = true /\ c <> "0"%char /\ all_digits d = true.
Proof.
  revert s. induction (N.lt_wf_0 x) as [x _ IH]. intros s Hx.
  rewrite pretty_N_go_step by exact Hx.
  destruct (N.eq_dec (x / 10) 0) as [E|E].
  - rewrite E, pretty_N_go_0.
    exists (pretty_N_char (x mod 10)), "". repeat split.
    + apply is_digit_pretty_N_char.
    + apply pretty_N_char_zero.
      apply N.div_small_iff in E; [|discriminate].
      rewrite N.mod_small by exact E. lia.
  - destruct (IH (x / 10)%N) with (s := String (pretty_N_char (x mod 10)) s)
      as (c & d & -> & Hc & Hc0 & Hd).
    + apply N.div_lt; [exact Hx | reflexivity].
    + apply N.neq_0_lt_0, E.
    + exists c, (d +:+ String (pretty_N_char (x mod 10)) "").
      repeat split; [|exact Hc | exact Hc0 |].
      * rewrite append_assoc. reflexivity.
      * rewrite all_digits_append, Hd. cbn [all_digits andb].
        rewrite is_digit_pretty_N_char. reflexivity.
Qed.

Lemma pretty_Z_digits z :
  0 < z ->
  exists c d,
    pretty z = String c d
    /\ is_digit c = true /\ c <> "0"%char /\ all_digits d = true.
Proof.
  destruct z as [|p|p]; try lia. intros _.
  change (pretty (Z.pos p)) with (pretty (N.pos p)).
  unfold pretty, pretty_N. destruct (decide (N.pos p = 0%N)); [discriminate|].
  destruct (pretty_N_go_digits (N.pos p) "") as (c & d & E & H); [lia|].
  exists c, d. rewrite E, append_nil_r. split; [reflexivity | exact H].
Qed.

Lemma all_digits_repeat_zero n : all_digits (repeat_char n "0") = true.
Proof. induction n as [|n IH]; [reflexivity | exact IH]. Qed.

(** Padding with zeros loses nothing of a numeral. *)
Lemma padStart_zero_inj n c1 d1 c2 d2 :
  c1 <> "0"%char -> c2 <> "0"%char ->
  padStart n "0" (String c1 d1) = padStart n "0" (String c2 d2) ->
  String c1 d1 = String c2 d2.
Proof.
  unfold padStart. intros H1 H2.
  generalize (n - String.length (String c1 d1))%nat as k1.
  generalize (n - String.length (String c2 d2))%nat as k2.
  intros k2 k1. revert k2.
  induction k1 as [|k1 IH]; intros [|k2]; cbn [repeat_char];
    rewrite ?append_cons, ?append_nil_l.
  - intros E. exact E.
  - intros [= E _]. destruct (H1 E).
  - intros [= E _]. destruct H2. rewrite E. reflexivity.
  - intros [= E]. exact (IH _ E).
Qed.

(** Where the digits end. *)
Lemma digits_prefix_inj d1 s1 d2 s2 :
  all_digits d1 = true -> all_digits d2 = true ->
  (s1 = "" \/ exists t, s1 = String "/" t) ->
  (s2 = "" \/ exists t, s2 = String "/" t) ->
  d1 +:+ s1 = d2 +:+ s2 -> d1 = d2 /\ s1 = s2.
Proof.
  revert d2. induction d1 as [|c d1 IH]; intros [|c2 d2] H1 H2 Hs1 Hs2;
    rewrite ?append_cons, ?append_nil_l.
  - intros E. split; [reflexivity | exact E].
  - intros ->. cbn [all_digits] in H2. apply andb_true_iff in H2 as [H2 _].
    destruct Hs1 as [E|[t E]]; [discriminate E|].
    injection E as -> _. discriminate H2.
  - intros <-. cbn [all_digits] in H1. apply andb_true_iff in H1 as [H1 _].
    destruct Hs2 as [E|[t E]]; [discriminate E|].
    injection E as -> _. discriminate H1.
  - intros [= <- E]. cbn [all_digits] in H1, H2.
    apply andb_true_iff in H1 as [_ H1]. apply andb_true_iff in H2 as [_ H2].
    destruct (IH d2 H1 H2 Hs1 Hs2 E) as [-> ->]. split; reflexivity.
Qed.

Lemma family_suffix_shape f x :
  family_suffix f x = "" \/ exists t, family_suffix f x = String "/" t.
Proof.
  unfold family_suffix. destruct ((0 <? f)%Z && (f <=? 26)%Z); [right | left].
  - eexists. reflexivity.
  - reflexivity.
Qed.

Lemma family_suffix_inj f1 x1 f2 x2 :
  family_suffix f1 x1 = family_suffix f2 x2 ->
  (0 <? f1)%Z && (f1 <=? 26)%Z = (0 <? f2)%Z && (f2 <=? 26)%Z
  /\ ((0 <? f1)%Z && (f1 <=? 26)%Z = true -> f1 = f2 /\ x1 = x2).
Proof.
  unfold family_suffix, String_fromCharCode.
  destruct ((0 <? f1)%Z && (f1 <=? 26)%Z) eqn:E1;
    destruct ((0 <? f2)%Z && (f2 <=? 26)%Z) eqn:E2;
    rewrite ?append_cons, ?append_nil_l; try discriminate.
  - intros [= Hc Hx]. split; [reflexivity|]. intros _.
    apply andb_true_iff in E1 as [A1 B1]. apply andb_true_iff in E2 as [A2 B2].
    apply Z.ltb_lt in A1, A2. apply Z.leb_le in B1, B2.
    split.
    + apply (f_equal N_of_ascii) in Hc.
      rewrite !N_ascii_embedding in Hc by lia. lia.
    + destruct x1, x2; (reflexivity || discriminate Hx).
  - intros _. split; [reflexivity | discriminate].
Qed.

(** X5. The house code tells houses apart. For house numbers from 1 up to
    [2^53], two calls of [generateHouseCode] that write the same code read
    the same house number; the families counts are both in the range 1 to
    26 or both outside it, and when they are in the range they are equal
    and so is the state of the X-family button. *)
Theorem generateHouseCode_injective {L : NumberLaws NP}
    (house1 families1 house2 families2 : string) (x1 x2 : bool) :
  0 < or_zero (parseInt house1) <= 2 ^ 53 ->
  0 < or_zero (parseInt house2) <= 2 ^ 53 ->
  generateHouseCode house1 families1 x1
  = generateHouseCode house2 families2 x2 ->
  or_zero (parseInt house1) = or_zero (parseInt house2)
  /\ (0 <? or_zero (parseInt families1))%Z
     && (or_zero (parseInt families1) <=? 26)%Z
     = (0 <? or_zero (parseInt families2))%Z
       && (or_zero (parseInt families2) <=? 26)%Z
  /\ ((0 <? or_zero (parseInt families1))%Z
      && (or_zero (parseInt families1) <=? 26)%Z = true ->
      or_zero (parseInt families1) = or_zero (parseInt families2)
      /\ x1 = x2).
Proof.
  intros Hh1 Hh2. rewrite !generateHouseCode_suffix.
  rewrite (proj2 (Z.ltb_lt _ _) (proj1 Hh1)).
  rewrite (proj2 (Z.ltb_lt _ _) (proj1 Hh2)).
  rewrite !Number_toString_decimal by lia.
  destruct (pretty_Z_digits _ (proj1 Hh1)) as (c1 & d1 & E1 & Hc1 & Hz1 & Hd1).
  destruct (pretty_Z_digits _ (proj1 Hh2)) as (c2 & d2 & E2 & Hc2 & Hz2 & Hd2).
  intros E.
  apply digits_prefix_inj in E as [Ed Es].
  - rewrite E1, E2 in Ed. apply padStart_zero_inj in Ed; [|assumption..].
    rewrite <- E1, <- E2 in Ed. apply (inj pretty) in Ed.
    split; [exact Ed|]. exact (family_suffix_inj _ _ _ _ Es).
  - unfold padStart. rewrite all_digits_append, all_digits_repeat_zero, E1.
    cbn [all_digits andb]. rewrite Hc1, Hd1. reflexivity.
  - unfold padStart. rewrite all_digits_append, all_digits_repeat_zero, E2.
    cbn [all_digits andb]. rewrite Hc2, Hd2. reflexivity.
  - apply family_suffix_shape.
  - apply family_suffix_shape.
Qed.

End HouseCode.

Lemma Reference_number_laws : NumberLaws Reference.number_platform.
Proof. constructor. intros z _. reflexivity. Qed.

(** ** Validation *)

Section Validation.

Context {P : Platform}.

Lemma check_required_result fields st :
  completion (check_required fields) st
  = Normal (forallb (fun field => truthy (trim (fst field))) fields).
Proof.
  unfold completion. induction fields as [|[value fieldName] rest IH]; simpl.
  - reflexivity.
  - destruct (truthy (trim value)); [exact IH | reflexivity].
Qed.

Lemma forallb_fmap {A B} (f : A -> B) (p : B -> bool) (l : list A) :
  forallb p (f <$> l) = forallb (fun x => p (f x)) l.
Proof.
  induction l as [|x l IH]; [reflexivity|].
  rewrite fmap_cons. cbn [forallb]. rewrite IH. reflexivity.
Qed.

Lemma validateForm_result form st :
  completion (validateForm form) st = Normal (form_ok form).
Proof.
  unfold form_ok, required_values. rewrite forallb_fmap.
  unfold completion, validateForm, bind.
  generalize (requiredFields form). intros fields.
  pose proof (check_required_result fields st) as Hc.
  destruct (check_required_run fields st) as (b & evs & E & Hb).
  unfold completion in Hc. rewrite E in Hc |- *. cbn [fst] in Hc.
  injection Hc as <-. cbv iota beta.
  destruct b; cbn [negb andb].
  - destruct (test cnic_pattern (Dom.hohCnic form)); cbn [negb andb].
    + destruct (test contact_pattern (Dom.contactNumber form)); reflexivity.
    + reflexivity.
  - reflexivity.
Qed.

Lemma form_ok_spec form :
  form_ok form = true
  <-> Forall (fun value => trim value <> "") (required_values form)
      /\ test cnic_pattern (Dom.hohCnic form) = true
      /\ test contact_pattern (Dom.contactNumber form) = true.
Proof.
  unfold form_ok. generalize (required_values form). intros values.
  rewrite !andb_true_iff, forallb_forall, Forall_forall.
  assert (Ht : forall v, truthy (trim v) = true <-> trim v <> "").
  { intros v. unfold truthy. rewrite negb_true_iff. apply String.eqb_neq. }
  split.
  - intros [[H ?] ?]. split; [|split; assumption].
    intros v Hv. apply Ht, H, list_elem_of_In, Hv.
  - intros (H & ? & ?). split; [split|]; try assumption.
    intros v Hv. apply Ht, H, list_elem_of_In, Hv.
Qed.

Lemma validateForm_rejects form st :
  form_ok form = false ->
  exists msg, validateForm form st = (Normal false, logged [Alert msg] st).
Proof.
  unfold form_ok, required_values. rewrite forallb_fmap.
  unfold validateForm, bind.
  generalize (requiredFields form). intros fields Hf.
  destruct (forallb (fun x => truthy (trim x.1)) fields) eqn:Ereq.
  - pose proof (check_required_result fields st) as Hc.
    destruct (check_required_run fields st) as (b & evs & E & Hb).
    unfold completion in Hc. rewrite E in Hc |- *. cbn [fst] in Hc.
    rewrite Ereq in Hc. injection Hc as ->.
    rewrite (Hb eq_refl), logged_nil. cbv iota beta. cbn [negb].
    destruct (test cnic_pattern (Dom.hohCnic form)); cbn [negb].
    + destruct (test contact_pattern (Dom.contactNumber form));
        [discriminate Hf|].
      cbn [negb]. eexists. reflexivity.
    + eexists. reflexivity.
  - clear Hf. induction fields as [|[value name] rest IH]; simpl in *.
    + discriminate.
    + destruct (truthy (trim value)); simpl in *.
      * exact (IH Ereq).
      * eexists. reflexivity.
Qed.

(** X6. [validateForm] accepts a form exactly when the eight required
    inputs are not blank once trimmed, the CNIC reads five digits, a dash,
    seven digits, a dash and one digit, and the contact number reads [03],
    two digits, a dash and seven digits. An accepted form leaves the state
    as it was; a rejected one shows exactly one alert and changes nothing
    else. *)
Theorem validateForm_accepts (form : Dom.Form) (st : State) :
  (completion (validateForm form) st = Normal true
   <-> Forall (fun value => trim value <> "")
         [Dom.blockCode form; Dom.houseNumber form; Dom.respondentName form;
          Dom.hohName form; Dom.hohFatherName form; Dom.hohCnic form;
          Dom.familiesCount form; Dom.contactNumber form]
       /\ test cnic_pattern (Dom.hohCnic form) = true
       /\ test contact_pattern (Dom.contactNumber form) = true)
  /\ (completion (validateForm form) st = Normal true ->
      validateForm form st = (Normal true, st))
  /\ (completion (validateForm form) st <> Normal true ->
      exists msg, validateForm form st = (Normal false, logged [Alert msg] st)).
Proof.
  rewrite (validateForm_result form st). split; [|split].
  - rewrite <- (form_ok_spec form). split; [intros [= H]; exact H|].
    intros ->. reflexivity.
  - intros [= H].
    destruct (validateForm_run form st) as (b & evs & E & Hb).
    pose proof (validateForm_result form st) as Hr.
    unfold completion in Hr. rewrite E in Hr. cbn [fst] in Hr.
    injection Hr as ->. rewrite H in *.
    rewrite E, (Hb eq_refl), logged_nil. reflexivity.
  - intros H. apply validateForm_rejects.
    destruct (form_ok form); [destruct H; reflexivity | reflexivity].
Qed.

End Validation.

(** ** What a handler leaves in the stores *)

Section Sync.

Context {P : Platform} (env : Env).

Lemma searchSurvey_run inputs st :
  searchSurvey inputs st
  = (Normal tt, logged (search_events inputs (surveys (this st))) st).
Proof.
  unfold searchSurvey, search_events, bind, get_this. cbv iota beta.
  destruct (search_results inputs (surveys (this st))); reflexivity.
Qed.

Lemma saveToDatabase_now_run st :
  saveToDatabase_now env st
  = (Normal tt,
     match database (this st) with None => saved env st | Some _ => st end).
Proof.
  unfold saveToDatabase_now, bind, get_this. cbv iota beta.
  destruct (database (this st)); [reflexivity | apply saveToLocalStorage_run].
Qed.

Lemma saveToDatabase_later_run st :
  saveToDatabase_later env st
  = (Normal tt,
     match database (this st) with
     | None => st
     | Some _ => persisted env st
     end).
Proof.
  unfold saveToDatabase_later, bind, get_this. cbv iota beta.
  unfold persisted.
  destruct (database (this st));
    [apply saveToDatabase_transaction_run | reflexivity].
Qed.

(** The state [deleteSurvey] leaves once the dialog is confirmed. *)
Lemma deleteSurvey_run id0 inputs st :
  deleteSurvey env id0 true inputs st
  = (Normal tt,
     let l := List.filter (fun s => negb (id s =? id0)%string)
                (surveys (this st)) in
     let shown st' :=
       logged [Alert "Record deleted successfully!"]
         (logged (search_events inputs l) st') in
     match database (this st) with
     | None => shown (saved env (saved env (with_surveys l st)))
     | Some _ => persisted env (shown (saved env (with_surveys l st)))
     end).
Proof.
  unfold deleteSurvey, bind at 1, get_this. cbv iota beta.
  unfold bind at 1.
  change (set_surveys ?l st) with (Normal tt, with_surveys l st).
  cbv iota beta.
  unfold bind at 1. rewrite saveToLocalStorage_run. cbv iota beta.
  unfold bind at 1. rewrite saveToDatabase_now_run. cbv iota beta.
  unfold bind at 1. rewrite searchSurvey_run. cbv iota beta.
  unfold bind at 1, alert, log. cbv iota beta.
  rewrite saveToDatabase_later_run.
  destruct (database (this st)) eqn:E; cbn; rewrite E; reflexivity.
Qed.


Lemma in_sync_logged evs st : in_sync st -> in_sync (logged evs st).
Proof. intros H. exact H. Qed.

Lemma in_sync_saved st :
  reliable env -> in_sync st -> in_sync (saved env st).
Proof.
  intros (_ & _ & _ & Hset) [_ Hstore]. split; [|exact Hstore].
  unfold FallbackStore_holds, saved. cbn [world pserSurveys this].
  rewrite Hset. reflexivity.
Qed.

Lemma in_sync_saved_no_handle st :
  reliable env -> database (this st) = None -> in_sync (saved env st).
Proof.
  intros (_ & _ & _ & Hset) Hdb. split.
  - unfold FallbackStore_holds, saved. cbn [world pserSurveys this].
    rewrite Hset. reflexivity.
  - intros H. destruct (H Hdb).
Qed.

(** A persist on a reliable device leaves both stores in line with the
    list, provided the ids are pairwise distinct when the object store is
    written. *)
Lemma in_sync_persisted st :
  reliable env ->
  (database (this st) <> None -> NoDup (id <$> surveys (this st))) ->
  in_sync (persisted env st).
Proof.
  intros (Hget & Hclear & Hadd & Hset) Hnd. split.
  - unfold FallbackStore_holds.
    rewrite persisted_this, persisted_pserSurveys, Hset. reflexivity.
  - rewrite persisted_this. intros Hdb. unfold persisted.
    destruct (database (this st)) as [db|]; [|destruct Hdb; reflexivity].
    rewrite Hclear.
    destruct (add_each_succeeds env (surveys (this st)) [])
      as (store & -> & Hperm).
    + intros s _. apply Hadd.
    + apply Hnd. discriminate.
    + intros s _. apply not_elem_of_nil.
    + cbn. rewrite Hperm, app_nil_r. reflexivity.
Qed.

(** What a start loads from stores that are in line with a list. *)
Lemma in_sync_restart {L : PlatformLaws P} st :
  in_sync st ->
  getAll_fails env = false ->
  database (this st) = (if open_fails env then None else Some PSERDatabase) ->
  (open_fails env = true -> Forall json_safe (surveys (this st))) ->
  surveys (this (exec (initDatabase env) (start (world st))))
  ≡ₚ surveys (this st)
  /\ (open_fails env = true ->
      surveys (this (exec (initDatabase env) (start (world st))))
      = surveys (this st)).
Proof.
  intros [Hblob Hstore] Hget Hdb Hsafe.
  unfold exec. rewrite initDatabase_run.
  destruct (open_fails env) eqn:Hopen.
  - cbn. rewrite (FallbackStore_read_holds _ _ Hblob).
    rewrite (map_toJSON_safe _ (Hsafe eq_refl)).
    split; [reflexivity | intros _; reflexivity].
  - rewrite Hget. cbn [snd]. rewrite loaded_from_objectStore_surveys.
    split; [|discriminate].
    apply Hstore. rewrite Hdb. discriminate.
Qed.

Lemma NoDup_ids_filter (p : Survey -> bool) (l : list Survey) :
  NoDup (id <$> l) -> NoDup (id <$> List.filter p l).
Proof.
  induction l as [|s l IH]; [intros H; exact H|].
  rewrite fmap_cons. intros H. apply NoDup_cons in H as [Hs H].
  cbn [List.filter]. destruct (p s); [|exact (IH H)].
  rewrite fmap_cons. apply NoDup_cons. split; [|exact (IH H)].
  intros Hin. apply Hs.
  apply list_elem_of_fmap in Hin as (x & -> & Hx).
  apply elem_of_filter in Hx as [Hx _]. apply list_elem_of_fmap_2, Hx.
Qed.






Lemma restoreBackup_array_run l inputs st :
  restoreBackup env (Content (Parsed (Array l))) true inputs st
  = (Normal tt,
     logged (search_events inputs l)
       (logged [Alert ("Backup restored successfully! "
                       +:+ pretty (length l) +:+ " records loaded.")]
          (persisted env (with_surveys l st)))).
Proof.
  unfold restoreBackup, restoreBackup_onload, try_catch.
  unfold bind at 1. unfold ret at 1.
  cbn [truthy_field Array_isArray negb orb].
  unfold bind at 1.
  change (set_surveys l st) with (Normal tt, with_surveys l st).
  cbv iota beta.
  unfold bind at 1. rewrite saveToDatabase_run. cbv iota beta.
  unfold bind at 1, alert, log. cbv iota beta.
  rewrite searchSurvey_run.
  change (surveys (this {| this := this (persisted env (with_surveys l st));
                           world := ?w |}))
    with (surveys (this (persisted env (with_surveys l st)))).
  unfold logged. cbn [this world objectStore pserSurveys trace].
  rewrite !persisted_this. reflexivity.
Qed.


Lemma confirmClearAll_run inputs st :
  confirmClearAll env "1234" inputs st
  = (Normal tt,
     let shown st' :=
       logged (search_events inputs [])
         (logged [Alert "All data has been cleared successfully!"] st') in
     match database (this st) with
     | None => shown (saved env (saved env (with_surveys [] st)))
     | Some _ => persisted env (shown (saved env (with_surveys [] st)))
     end).
Proof.
  unfold confirmClearAll. cbn [String.eqb Ascii.eqb Bool.eqb].
  unfold bind at 1.
  change (set_surveys [] st) with (Normal tt, with_surveys [] st).
  cbv iota beta.
  unfold bind at 1. rewrite saveToLocalStorage_run. cbv iota beta.
  unfold bind at 1. rewrite saveToDatabase_now_run. cbv iota beta.
  unfold bind at 1, alert, log. cbv iota beta.
  unfold bind at 1. rewrite searchSurvey_run. cbv iota beta.
  rewrite saveToDatabase_later_run.
  destruct (database (this st)) eqn:E; cbn; rewrite E; reflexivity.
Qed.

(** X10. [confirmClearAll] with the password [1234], on a device that
    answers every request, clears for good: the in-memory list is empty,
    both stores are in line with it, the object store is empty when the
    application holds a handle, and the next start loads no record. *)
Theorem confirmClearAll_durable {L : PlatformLaws P}
    (st : State) (inputs : Dom.Search) :
  reliable env ->
  database (this st) = (if open_fails env then None else Some PSERDatabase) ->
  surveys (this (exec (confirmClearAll env "1234" inputs) st)) = []
  /\ in_sync (exec (confirmClearAll env "1234" inputs) st)
  /\ (database (this st) <> None ->
      objectStore (world (exec (confirmClearAll env "1234" inputs) st)) = [])
  /\ surveys (this (exec (initDatabase env)
                      (start (world (exec (confirmClearAll env "1234" inputs)
                                       st)))))
     = [].
Proof.
  intros Hrel Hdb.
  destruct (confirmClearAll_cleared env inputs st) as (st' & E & Ht).
  assert (Hl : surveys (this (exec (confirmClearAll env "1234" inputs) st))
               = []).
  { unfold exec. rewrite E. cbn [snd]. rewrite Ht. reflexivity. }
  assert (Hdb' : database (this (exec (confirmClearAll env "1234" inputs) st))
                 = database (this st)).
  { unfold exec. rewrite E. cbn [snd]. rewrite Ht. reflexivity. }
  assert (Hsync : in_sync (exec (confirmClearAll env "1234" inputs) st)).
  { unfold exec. rewrite confirmClearAll_run. cbn [snd].
    destruct (database (this st)) as [db|] eqn:Ed.
    - apply in_sync_persisted; [exact Hrel|]. intros _. cbn.
      apply NoDup_nil_2.
    - do 2 apply in_sync_logged. apply in_sync_saved; [exact Hrel|].
      apply in_sync_saved_no_handle; [exact Hrel | exact Ed]. }
  split; [exact Hl|]. split; [exact Hsync|]. split.
  - intros Hh. destruct Hsync as [_ Hstore].
    rewrite Hdb', Hl in Hstore. apply Permutation_nil_r, Hstore, Hh.
  - destruct Hrel as (Hget & _).
    destruct (in_sync_restart _ Hsync Hget) as [Hperm _].
    + rewrite Hdb'. exact Hdb.
    + rewrite Hl. intros _. constructor.
    + rewrite Hl in Hperm. apply Permutation_nil_r, Hperm.
Qed.

End Sync.

(** ** Search with both inputs *)

Section SearchBoth.

Context {P : Platform}.

Lemma filter_from_elem_of {A} (p : A -> nat -> bool) (l : list A) start x :
  x ∈ filter_from start p l ->
  x ∈ l /\ exists index, (start <= index)%nat /\ p x index = true.
Proof.
  revert start. induction l as [|a l IH]; intros start; cbn [filter_from].
  - intros H. inversion H.
  - destruct (p a start) eqn:Ea.
    + intros H. apply elem_of_cons in H as [->|H].
      * split; [apply list_elem_of_here|]. exists start. split; [lia|exact Ea].
      * destruct (IH _ H) as (Hx & index & Hi & Hp).
        split; [apply list_elem_of_further, Hx|].
        exists index. split; [lia | exact Hp].
    + intros H. destruct (IH _ H) as (Hx & index & Hi & Hp).
      split; [apply list_elem_of_further, Hx|].
      exists index. split; [lia | exact Hp].
Qed.

Lemma filter_from_lookup {A} (p : A -> nat -> bool) (l : list A) start i x :
  l !! i = Some x -> p x (start + i)%nat = true -> x ∈ filter_from start p l.
Proof.
  revert start i. induction l as [|a l IH]; intros start i; [discriminate|].
  destruct i as [|i]; cbn [filter_from].
  - intros [= ->]. rewrite Nat.add_0_r. intros ->. apply list_elem_of_here.
  - intros Hx Hp. replace (start + S i)%nat with (S start + i)%nat in Hp by lia.
    pose proof (IH _ _ Hx Hp) as H.
    destruct (p a start); [apply list_elem_of_further|]; exact H.
Qed.

Lemma filter_from_first_NoDup (g : string -> option nat) (l : list Survey)
    (start : nat) :
  NoDup (id <$> filter_from start
                  (fun survey index =>
                     match g (id survey) with
                     | Some first => (index =? first)%nat
                     | None => false
                     end) l).
Proof.
  revert start. induction l as [|a l IH]; intros start; cbn [filter_from].
  - apply NoDup_nil_2.
  - destruct (g (id a)) as [first|] eqn:Eg; [|apply IH].
    destruct (start =? first)%nat eqn:Ea; [|apply IH].
    rewrite fmap_cons. apply NoDup_cons. split; [|apply IH].
    intros Hin. apply list_elem_of_fmap in Hin as (y & Hid & Hy).
    apply filter_from_elem_of in Hy as (_ & index & Hi & Hp).
    rewrite <- Hid, Eg in Hp.
    apply Nat.eqb_eq in Ea, Hp. lia.
Qed.

(** No id is displayed twice. *)
Lemma first_of_id_NoDup (self : list Survey) : NoDup (id <$> first_of_id self).
Proof.
  apply (filter_from_first_NoDup
           (fun k => findIndex (fun s => (id s =? k)%string) self)).
Qed.

(** Among records that are told apart by their ids, none is lost. *)
Lemma first_of_id_elem_of (self : list Survey) (r : Survey) :
  (forall x y, x ∈ self -> y ∈ self -> id x = id y -> x = y) ->
  r ∈ first_of_id self <-> r ∈ self.
Proof.
  intros Hinj. split.
  - intros H. apply filter_from_elem_of in H as [H _]. exact H.
  - intros Hr. unfold first_of_id.
    destruct (findIndex (fun s => (id s =? id r)%string) self) as [first|]
      eqn:Ef.
    + destruct (findIndex_Some _ _ _ Ef) as (x & Hx & Hp & _).
      apply String.eqb_eq in Hp.
      assert (x = r) as ->.
      { apply Hinj; [eapply list_elem_of_lookup_2, Hx | exact Hr | exact Hp]. }
      apply (filter_from_lookup _ _ 0 first); [exact Hx|].
      rewrite Ef. apply Nat.eqb_refl.
    + apply findIndex_id_None in Ef. destruct Ef.
      apply list_elem_of_fmap_2, Hr.
Qed.

Lemma NoDup_ids_inj (l : list Survey) x y :
  NoDup (id <$> l) -> x ∈ l -> y ∈ l -> id x = id y -> x = y.
Proof.
  induction l as [|a l IH]; [intros _ H; inversion H|].
  rewrite fmap_cons. intros Hnd Hx Hy E.
  apply NoDup_cons in Hnd as [Ha Hnd].
  apply elem_of_cons in Hx as [->|Hx]; apply elem_of_cons in Hy as [->|Hy].
  - reflexivity.
  - destruct Ha. rewrite E. apply list_elem_of_fmap_2, Hy.
  - destruct Ha. rewrite <- E. apply list_elem_of_fmap_2, Hx.
  - exact (IH Hnd Hx Hy E).
Qed.

Lemma length_zero_nil {A} (l : list A) : (0 <? length l)%nat = false -> l = [].
Proof. destruct l; [reflexivity | discriminate]. Qed.

(** X11. A search with a value in both inputs displays, among records
    with pairwise distinct ids, exactly the records that match the house
    number or the CNIC digits, and none of them twice. *)
Theorem searchSurvey_both_inputs (st : State) (inputs : Dom.Search)
    (house cnic : string) :
  Dom.searchHouseNumber inputs = Some house -> house <> "" ->
  Dom.searchCnic inputs = Some cnic -> cnic <> "" ->
  NoDup (id <$> surveys (this st)) ->
  exists results,
    searchSurvey inputs st = (Normal tt, logged [Display results] st)
    /\ NoDup (id <$> results)
    /\ forall r,
         r ∈ results <->
         r ∈ surveys (this st)
         /\ (strict_eq_number (houseNumber r) (parseInt house) = true
             \/ includes (digits_only (hohCnic r)) (digits_only cnic) = true).
Proof.
  intros Hh Hhne Hc Hcne Hnd.
  assert (Hth : truthy_opt (Dom.searchHouseNumber inputs) = true)
    by (rewrite Hh; apply truthy_opt_Some, Hhne).
  assert (Htc : truthy_opt (Dom.searchCnic inputs) = true)
    by (rewrite Hc; apply truthy_opt_Some, Hcne).
  set (l := surveys (this st)) in *.
  set (hs := by_houseNumber (parseInt house) l).
  set (cs := by_cnic (digits_only cnic) l).
  assert (Hhs : forall r, r ∈ hs <->
                  r ∈ l /\ strict_eq_number (houseNumber r) (parseInt house)
                           = true)
    by (intros r;
        apply (elem_of_filter
                 (fun survey => strict_eq_number (houseNumber survey)
                                  (parseInt house)))).
  assert (Hcs : forall r, r ∈ cs <->
                  r ∈ l /\ includes (digits_only (hohCnic r))
                             (digits_only cnic) = true)
    by (intros r;
        apply (elem_of_filter
                 (fun survey => includes (digits_only (hohCnic survey))
                                  (digits_only cnic)))).
  assert (Hres : search_results inputs l
                 = Some (if (0 <? length hs)%nat && (0 <? length cs)%nat
                         then first_of_id (hs ++ cs)
                         else if (0 <? length cs)%nat then cs else hs)).
  { unfold search_results. rewrite Hth, Htc, Hh, Hc. reflexivity. }
  eexists. split.
  { unfold searchSurvey, bind, get_this. cbv iota beta. fold l.
    rewrite Hres. reflexivity. }
  destruct (0 <? length hs)%nat eqn:Eh; cbn [andb].
  - destruct (0 <? length cs)%nat eqn:Ec.
    + split; [apply first_of_id_NoDup|]. intros r.
      rewrite first_of_id_elem_of.
      * rewrite elem_of_app, Hhs, Hcs. tauto.
      * intros x y Hx Hy. apply (NoDup_ids_inj l); [exact Hnd| |].
        -- apply elem_of_app in Hx as [Hx|Hx];
             [apply Hhs in Hx | apply Hcs in Hx]; apply Hx.
        -- apply elem_of_app in Hy as [Hy|Hy];
             [apply Hhs in Hy | apply Hcs in Hy]; apply Hy.
    + split; [apply NoDup_ids_filter, Hnd|]. intros r.
      apply length_zero_nil in Ec. rewrite Hhs. split; [tauto|].
      intros [Hr [H|H]]; [tauto|].
      assert (Hin : r ∈ cs) by (apply Hcs; tauto).
      rewrite Ec in Hin. inversion Hin.
  - apply length_zero_nil in Eh.
    destruct (0 <? length cs)%nat eqn:Ec.
    + split; [apply NoDup_ids_filter, Hnd|]. intros r.
      rewrite Hcs. split; [tauto|].
      intros [Hr [H|H]]; [|tauto].
      assert (Hin : r ∈ hs) by (apply Hhs; tauto).
      rewrite Eh in Hin. inversion Hin.
    + apply length_zero_nil in Ec. split; [apply NoDup_ids_filter, Hnd|].
      intros r. rewrite Hhs. split; [tauto|].
      intros [Hr [H|H]]; [tauto|].
      assert (Hin : r ∈ cs) by (apply Hcs; tauto).
      rewrite Ec in Hin. inversion Hin.
Qed.

End SearchBoth.

(** ** The order of the object store *)

Section KeyOrder.

Context {P : Platform}.

Lemma Ascii_compare_Lt_trans a b c :
  Ascii.compare a b = Lt -> Ascii.compare b c = Lt -> Ascii.compare a c = Lt.
Proof.
  unfold Ascii.compare. rewrite !N.compare_lt_iff. intros H1 H2.
  exact (N.lt_trans _ _ _ H1 H2).
Qed.

Lemma compare_Lt_trans s1 s2 s3 :
  String.compare s1 s2 = Lt -> String.compare s2 s3 = Lt ->
  String.compare s1 s3 = Lt.
Proof.
  revert s2 s3. induction s1 as [|a s1 IH]; intros [|b s2] [|c s3];
    cbn [String.compare]; try discriminate; try reflexivity.
  destruct (Ascii.compare a b) eqn:Eab; [| |discriminate].
  - apply Ascii.compare_eq_iff in Eab as ->.
    destruct (Ascii.compare b c); [apply IH | reflexivity | discriminate].
  - intros _. destruct (Ascii.compare b c) eqn:Ebc; [| |discriminate].
    + apply Ascii.compare_eq_iff in Ebc as <-. rewrite Eab. reflexivity.
    + rewrite (Ascii_compare_Lt_trans _ _ _ Eab Ebc). reflexivity.
Qed.

Lemma ltb_compare a b : String.ltb a b = true <-> String.compare a b = Lt.
Proof.
  unfold String.ltb. destruct (String.compare a b);
    split; (reflexivity || discriminate).
Qed.

Lemma id_lt_trans a b c : id_lt a b -> id_lt b c -> id_lt a c.
Proof. unfold id_lt. rewrite !ltb_compare. apply compare_Lt_trans. Qed.

Lemma id_lt_irrefl a b : id_lt a b -> id a <> id b.
Proof.
  unfold id_lt. rewrite ltb_compare. intros H E. rewrite E in H.
  pose proof (String.compare_antisym (id b) (id b)) as Ha.
  rewrite H in Ha. discriminate Ha.
Qed.

Lemma id_lt_asym a b : id_lt a b -> String.ltb (id b) (id a) = false.
Proof.
  unfold id_lt. rewrite ltb_compare. intros H.
  unfold String.ltb. rewrite String.compare_antisym, H. reflexivity.
Qed.

Lemma id_lt_total a b :
  id a <> id b -> String.ltb (id a) (id b) = false -> id_lt b a.
Proof.
  unfold id_lt, String.ltb. intros Hne.
  rewrite (String.compare_antisym (id b) (id a)).
  destruct (String.compare (id a) (id b)) eqn:E; try discriminate.
  - destruct Hne. apply String.compare_eq_iff, E.
  - reflexivity.
Qed.

(** A record with a new key is put at its place in key order. *)
Lemma insert_by_key_sorted s store :
  StronglySorted id_lt store ->
  id s ∉ id <$> store ->
  StronglySorted id_lt (insert_by_key s store).
Proof.
  induction 1 as [|x rest Hrest IH Hx]; intros Hnew; cbn [insert_by_key].
  - constructor; constructor.
  - rewrite fmap_cons in Hnew. apply not_elem_of_cons in Hnew as [Hne Hnew].
    destruct (String.ltb (id s) (id x)) eqn:E.
    + constructor; [constructor; assumption|].
      constructor; [exact E|].
      eapply Forall_impl; [exact Hx|]. intros y Hy.
      exact (id_lt_trans s x y E Hy).
    + constructor; [exact (IH Hnew)|].
      rewrite (insert_by_key_Permutation s rest).
      constructor; [|exact Hx]. apply id_lt_total; assumption.
Qed.

(** Whatever order the records were added in, the store holds them in key
    order. *)
Lemma add_each_sorted env requests store store' :
  add_each env requests store = inl store' ->
  StronglySorted id_lt store -> StronglySorted id_lt store'.
Proof.
  revert store. induction requests as [|s rest IH]; intros store;
    cbn [add_each].
  - intros [= <-] H. exact H.
  - unfold objectStore_add.
    destruct (add_fails env s || has_key (id s) store) eqn:E; [discriminate|].
    apply orb_false_iff in E as [_ Hkey]. apply has_key_false in Hkey.
    intros H Hs. apply (IH _ H), insert_by_key_sorted; assumption.
Qed.

Lemma insert_by_key_last s store :
  Forall (fun x => id_lt x s) store -> insert_by_key s store = store ++ [s].
Proof.
  induction 1 as [|x rest Hx _ IH]; cbn [insert_by_key]; [reflexivity|].
  rewrite (id_lt_asym _ _ Hx), IH. reflexivity.
Qed.

(** Records added in key order are stored in the order they were added. *)
Lemma add_each_ascending env requests store :
  (forall s, s ∈ requests -> add_fails env s = false) ->
  StronglySorted id_lt requests ->
  Forall (fun x => Forall (id_lt x) requests) store ->
  add_each env requests store = inl (store ++ requests).
Proof.
  revert store. induction requests as [|s rest IH]; intros store Hadd Hs Hlt;
    cbn [add_each].
  - rewrite app_nil_r. reflexivity.
  - apply StronglySorted_inv in Hs as [Hrest Hs].
    assert (Hbelow : Forall (fun x => id_lt x s) store).
    { eapply Forall_impl; [exact Hlt|]. intros x Hx.
      apply Forall_cons in Hx as [Hx _]. exact Hx. }
    unfold objectStore_add.
    rewrite (Hadd s) by apply list_elem_of_here. cbn [orb].
    assert (Hkey : has_key (id s) store = false).
    { apply has_key_false. intros Hin.
      apply list_elem_of_fmap in Hin as (x & E & Hx).
      rewrite Forall_forall in Hbelow.
      exact (id_lt_irrefl _ _ (Hbelow x Hx) (eq_sym E)). }
    rewrite Hkey, (insert_by_key_last _ _ Hbelow), IH.
    + rewrite <- app_assoc. reflexivity.
    + intros x Hx. apply Hadd, list_elem_of_further, Hx.
    + exact Hrest.
    + apply Forall_app. split.
      * eapply Forall_impl; [exact Hlt|]. intros x Hx.
        apply Forall_cons in Hx as [_ Hx]. exact Hx.
      * constructor; [exact Hs | constructor].
Qed.

(** X12. What a start loads from the object store after a
    [saveToDatabase] is in ascending order of the ids (as strings),
    whatever the order of the in-memory list was; a list that was in that
    order is loaded exactly as it was. *)
Theorem objectStore_round_trip_order (env : Env) (st : State) :
  database (this st) <> None ->
  open_fails env = false ->
  getAll_fails env = false ->
  clear_fails env = false ->
  (forall s, s ∈ surveys (this st) -> add_fails env s = false) ->
  NoDup (id <$> surveys (this st)) ->
  StronglySorted id_lt
    (surveys (this (exec (initDatabase env)
                      (start (world (exec (saveToDatabase env) st))))))
  /\ (StronglySorted id_lt (surveys (this st)) ->
      surveys (this (exec (initDatabase env)
                       (start (world (exec (saveToDatabase env) st)))))
      = surveys (this st)).
Proof.
  intros Hdb Hopen Hget Hclear Hadd Hnd.
  unfold exec. rewrite saveToDatabase_run, initDatabase_run, Hopen, Hget.
  cbn [snd]. rewrite loaded_from_objectStore_surveys.
  cbn [with_database exec set_database snd world start].
  unfold persisted. destruct (database (this st)) as [db|];
    [|destruct Hdb; reflexivity].
  rewrite Hclear.
  destruct (add_each_succeeds env (surveys (this st)) [] Hadd Hnd)
    as (store & E & _).
  { intros s _. apply not_elem_of_nil. }
  rewrite E. cbn [saved with_objectStore world objectStore].
  split.
  - apply (add_each_sorted _ _ _ _ E). constructor.
  - intros Hs.
    rewrite (add_each_ascending env _ [] Hadd Hs) in E by constructor.
    injection E as <-. reflexivity.
Qed.

End KeyOrder.

(** ** Repeated and failed writes *)

Section Faults.

Context {P : Platform}.

Lemma persisted_objectStore env st :
  objectStore (world (persisted env st))
  = match database (this st) with
    | None => objectStore (world st)
    | Some _ =>
        if clear_fails env then objectStore (world st)
        else match add_each env (surveys (this st)) [] with
             | inl store => store
             | inr _ => objectStore (world st)
             end
    end.
Proof.
  unfold persisted. destruct (database (this st)); [|reflexivity].
  destruct (clear_fails env); [apply iter_saved_objectStore|].
  destruct (add_each env (surveys (this st)) []);
    [reflexivity | apply iter_saved_objectStore].
Qed.


(** X14. When the transaction of [saveToDatabase] fails (the [clear]
    request or one of the [add] requests), the list is written to the blob
    store but the object store keeps what it held; the next start, on
    which the database opens and answers, loads the old content of the
    object store, and when that is not empty writes it over the copy in
    the blob store. *)
Theorem failed_transaction_lost_at_restart (env env' : Env) (st : State) :
  database (this st) <> None ->
  clear_fails env = true
  \/ (exists pending, add_each env (surveys (this st)) [] = inr pending) ->
  setItem_throws env (JSON_stringify (surveys (this st))) = false ->
  open_fails env' = false ->
  getAll_fails env' = false ->
  FallbackStore_holds (surveys (this st)) (world (exec (saveToDatabase env) st))
  /\ objectStore (world (exec (saveToDatabase env) st))
     = objectStore (world st)
  /\ surveys (this (exec (initDatabase env')
                      (start (world (exec (saveToDatabase env) st)))))
     = objectStore (world st)
  /\ (objectStore (world st) <> [] ->
      setItem_throws env' (JSON_stringify (objectStore (world st))) = false ->
      FallbackStore_holds (objectStore (world st))
        (world (exec (initDatabase env')
                  (start (world (exec (saveToDatabase env) st)))))).
Proof.
  intros Hdb Hfail Hset Hopen Hget.
  assert (Hstore : objectStore (world (persisted env st))
                   = objectStore (world st)).
  { rewrite persisted_objectStore.
    destruct (database (this st)); [|reflexivity].
    destruct Hfail as [->|[pending ->]]; [reflexivity|].
    destruct (clear_fails env); reflexivity. }
  unfold exec. rewrite saveToDatabase_run. cbn [snd].
  rewrite initDatabase_run, Hopen, Hget. cbn [snd].
  split; [|split; [exact Hstore|split]].
  - unfold FallbackStore_holds. rewrite persisted_pserSurveys, Hset.
    reflexivity.
  - rewrite loaded_from_objectStore_surveys. exact Hstore.
  - intros Hne Hset'. unfold loaded_from_objectStore.
    cbn [with_database exec set_database snd world start objectStore].
    rewrite Hstore.
    destruct (objectStore (world st)) as [|s l] eqn:E;
      [destruct Hne; reflexivity|].
    cbn [length Nat.ltb Nat.leb].
    unfold FallbackStore_holds, saved.
    cbn [world pserSurveys this with_surveys exec set_surveys snd surveys].
    rewrite Hset'. reflexivity.
Qed.

End Faults.

(** ** Editing, rejected forms, exceptions *)

Section EditSave.

Context {P : Platform} (env : Env).

Lemma find_findIndex {A} (p : A -> bool) (l : list A) (x : A) :
  List.find p l = Some x ->
  exists i, findIndex p l = Some i /\ l !! i = Some x.
Proof.
  induction l as [|a l IH]; cbn [List.find findIndex]; [discriminate|].
  destruct (p a).
  - intros [= ->]. exists 0%nat. split; reflexivity.
  - intros H. destruct (IH H) as (i & -> & Hi).
    exists (S i). split; [reflexivity | exact Hi].
Qed.

(** X15. [editSurvey] of an id that is not empty and that a record
    carries, followed by [saveSurvey] of a valid form, overwrites the first
    record with that id by the record of the form, which keeps the id and
    the location of the old one; no other entry and no id changes, and the
    form stays in edit mode unless the save was a save-and-new. *)
Theorem editSurvey_then_saveSurvey
    (st : State) (id0 : string) (old : Survey) (form : Dom.Form)
    (now iso : string) (isNew : bool) :
  id0 <> "" ->
  List.find (fun s => (id s =? id0)%string) (surveys (this st)) = Some old ->
  completion (validateForm form) st = Normal true ->
  exists (i : nat) (r : Survey),
    surveys (this st) !! i = Some old
    /\ (forall j y, (j < i)%nat -> surveys (this st) !! j = Some y ->
                    id y <> id0)
    /\ surveys (this (exec (editSurvey id0 ;;
                            saveSurvey env form now iso isNew) st))
       = <[i := r]> (surveys (this st))
    /\ r = getFormData (this (exec (editSurvey id0) st)) form now iso
    /\ id r = id0
    /\ location r = location old
    /\ id <$> surveys (this (exec (editSurvey id0 ;;
                                   saveSurvey env form now iso isNew) st))
       = id <$> surveys (this st)
    /\ currentEditId (this (exec (editSurvey id0 ;;
                                  saveSurvey env form now iso isNew) st))
       = if isNew then None else Some id0.
Proof.
  intros Hne Hfind Hv.
  destruct (find_findIndex _ _ _ Hfind) as (i & Hi & Hold).
  pose proof (findIndex_Some _ _ _ Hi) as (x & Hx & Hp & Hfirst).
  assert (Hedit : editSurvey id0 st
                  = (Normal tt, exec (editSurvey id0) st))
    by (unfold exec, editSurvey; rewrite Hfind; reflexivity).
  assert (Hcur : currentEditId (this (exec (editSurvey id0) st)) = Some id0)
    by (unfold exec, editSurvey; rewrite Hfind; reflexivity).
  assert (Hloc : currentLocation (this (exec (editSurvey id0) st))
                 = location old)
    by (unfold exec, editSurvey; rewrite Hfind; reflexivity).
  assert (Hl : surveys (this (exec (editSurvey id0) st)) = surveys (this st))
    by apply editSurvey_surveys.
  assert (Htr : truthy_opt (Some id0) = true) by (apply truthy_opt_Some, Hne).
  assert (Hv' : completion (validateForm form) (exec (editSurvey id0) st)
                = Normal true).
  { rewrite validateForm_result. rewrite validateForm_result in Hv.
    exact Hv. }
  exists i, (getFormData (this (exec (editSurvey id0) st)) form now iso).
  assert (Hrun : exec (editSurvey id0 ;; saveSurvey env form now iso isNew) st
                 = exec (saveSurvey env form now iso isNew)
                     (exec (editSurvey id0) st)).
  { unfold exec at 1. unfold bind. rewrite Hedit. reflexivity. }
  rewrite Hrun.
  assert (Hsaved :
    surveys (this (exec (saveSurvey env form now iso isNew)
                     (exec (editSurvey id0) st)))
    = <[i := getFormData (this (exec (editSurvey id0) st)) form now iso]>
        (surveys (this st))).
  { unfold exec at 1. rewrite (saveSurvey_valid env _ _ _ _ _ Hv').
    cbn [snd].
    assert (Hs : forall st0,
              surveys (this (if isNew
                             then exec reset_edit
                                    (logged [Alert "Survey data saved successfully!"]
                                       (persisted env st0))
                             else logged [Alert "Survey data saved successfully!"]
                                    (persisted env st0)))
              = surveys (this st0)).
    { intros st0. destruct isNew; cbn; rewrite persisted_this; reflexivity. }
    rewrite Hs. cbn [with_surveys exec set_surveys snd this surveys].
    unfold store_surveyData. rewrite Hcur, Htr.
    change (default "" (Some id0)) with id0.
    rewrite Hl, Hi. reflexivity. }
  repeat split.
  - exact Hold.
  - intros j y Hj Hy E. specialize (Hfirst j y Hj Hy). cbv beta in Hfirst.
    rewrite E, String.eqb_refl in Hfirst. discriminate Hfirst.
  - exact Hsaved.
  - rewrite getFormData_id, Hcur, Htr. reflexivity.
  - cbn [getFormData location]. exact Hloc.
  - rewrite Hsaved. apply (ids_insert _ _ _ old Hold).
    rewrite getFormData_id, Hcur, Htr.
    change (default "" (Some id0)) with id0.
    apply find_some in Hfind as [_ E]. apply String.eqb_eq, E.
  - unfold exec at 1. rewrite (saveSurvey_valid env _ _ _ _ _ Hv').
    cbn [snd]. destruct isNew; cbn; [reflexivity|].
    rewrite persisted_this. cbn. exact Hcur.
Qed.

(** X16. [saveSurvey] on a form that [validateForm] rejects shows the one
    alert of the validation and does nothing else: the record list, the
    edit mode and both stores are as before. *)
Theorem saveSurvey_rejects_invalid
    (st : State) (form : Dom.Form) (now iso : string) (isNew : bool) :
  completion (validateForm form) st <> Normal true ->
  exists msg,
    saveSurvey env form now iso isNew st
    = (Normal tt, logged [Alert msg] st).
Proof.
  intros Hv.
  destruct (validateForm_rejects form st) as [msg E].
  { rewrite validateForm_result in Hv.
    destruct (form_ok form); [destruct Hv; reflexivity | reflexivity]. }
  exists msg. unfold saveSurvey, bind. rewrite E. reflexivity.
Qed.


End EditSave.

(** ** The format of the search input *)

Section SearchFormat.

Context {P : Platform}.

Lemma digits_only_nonempty s : digits_only s <> "" -> s <> "".
Proof. intros H ->. apply H. reflexivity. Qed.

Lemma search_results_format_cnic (typed : string) (house : option string)
    (l : list Survey) :
  digits_only typed <> "" ->
  search_results
    {| Dom.searchHouseNumber := house;
       Dom.searchCnic := Some (format_cnic typed) |} l
  = search_results
      {| Dom.searchHouseNumber := house; Dom.searchCnic := Some typed |} l.
Proof.
  intros Hd.
  pose proof (digits_only_format_cnic typed) as Hk.
  assert (H1 : truthy_opt (Some typed) = true)
    by (apply truthy_opt_Some, digits_only_nonempty, Hd).
  assert (H2 : truthy_opt (Some (format_cnic typed)) = true).
  { apply truthy_opt_Some, digits_only_nonempty. rewrite Hk. exact Hd. }
  unfold search_results.
  cbn [Dom.searchHouseNumber Dom.searchCnic].
  rewrite H1, H2.
  change (default "" (Some (format_cnic typed))) with (format_cnic typed).
  rewrite Hk. reflexivity.
Qed.

(** X18. [searchSurvey] does the same for the CNIC input as its input
    handler formats it and for the text as it was typed, provided the text
    holds a digit: the dashes the handler inserts do not change what is
    found. *)
Theorem search_ignores_cnic_format (typed : string) (house : option string)
    (st : State) :
  digits_only typed <> "" ->
  searchSurvey
    {| Dom.searchHouseNumber := house;
       Dom.searchCnic := Some (format_cnic typed) |} st
  = searchSurvey
      {| Dom.searchHouseNumber := house; Dom.searchCnic := Some typed |} st.
Proof.
  intros Hd. unfold searchSurvey, bind, get_this. cbv iota beta.
  rewrite (search_results_format_cnic typed house _ Hd). reflexivity.
Qed.

End SearchFormat.

(** ** A failing read, and the save button pressed twice *)

Section FailedRead.

Context {P : Platform}.


(** X20. The save button pressed twice on a valid form outside edit mode
    appends two records, one per press, each with the time-based id of its
    press: the button neither clears the form nor enters edit mode. *)
Theorem saveSurvey_twice_appends_twice (env : Env) (st : State)
    (form : Dom.Form) (now1 iso1 now2 iso2 : string) :
  completion (validateForm form) st = Normal true ->
  truthy_opt (currentEditId (this st)) = false ->
  surveys (this (exec (saveSurvey env form now1 iso1 false ;;
                       saveSurvey env form now2 iso2 false) st))
  = surveys (this st)
    ++ [getFormData (this st) form now1 iso1;
        getFormData (this st) form now2 iso2]
  /\ id (getFormData (this st) form now1 iso1) = now1
  /\ id (getFormData (this st) form now2 iso2) = now2.
Proof.
  intros Hv Hedit.
  set (r1 := getFormData (this st) form now1 iso1).
  set (st1 := logged [Alert "Survey data saved successfully!"]
                (persisted env (with_surveys (surveys (this st) ++ [r1]) st))).
  assert (E1 : saveSurvey env form now1 iso1 false st = (Normal tt, st1)).
  { rewrite (saveSurvey_valid env _ _ _ _ _ Hv). cbv zeta iota.
    unfold store_surveyData. rewrite Hedit. reflexivity. }
  assert (Ht : this st1 = this (with_surveys (surveys (this st) ++ [r1]) st)).
  { unfold st1. cbn [logged this]. apply persisted_this. }
  assert (Hv1 : completion (validateForm form) st1 = Normal true).
  { rewrite validateForm_result. rewrite validateForm_result in Hv.
    exact Hv. }
  assert (Hedit1 : truthy_opt (currentEditId (this st1)) = false).
  { rewrite Ht. exact Hedit. }
  assert (Hr2 : getFormData (this st1) form now2 iso2
                = getFormData (this st) form now2 iso2).
  { rewrite Ht. reflexivity. }
  split; [|split].
  - unfold exec, bind. rewrite E1. cbv iota beta.
    rewrite (saveSurvey_valid env _ _ _ _ _ Hv1). cbv zeta iota.
    cbn [snd logged this]. rewrite persisted_this.
    cbn [with_surveys exec set_surveys snd this surveys].
    unfold store_surveyData. rewrite Hedit1, Hr2, Ht.
    cbn [with_surveys exec set_surveys snd this surveys].
    rewrite <- app_assoc. reflexivity.
  - unfold r1. rewrite getFormData_id, Hedit. reflexivity.
  - rewrite getFormData_id, Hedit. reflexivity.
Qed.

End FailedRead.

(** ** A session *)

Section SessionProperties.

Context {P : Platform} (env : Env).

Lemma primary_in_line_logged evs st :
  primary_in_line st -> primary_in_line (logged evs st).
Proof. intros H. exact H. Qed.

Lemma primary_in_line_persisted st :
  clear_fails env = false ->
  (forall s, add_fails env s = false) ->
  database (this st) <> None ->
  NoDup (id <$> surveys (this st)) ->
  primary_in_line (persisted env st).
Proof.
  intros Hclear Hadd Hdb Hnd. split; [|split].
  - rewrite persisted_this. exact Hdb.
  - rewrite persisted_this, persisted_objectStore.
    destruct (database (this st)); [|destruct Hdb; reflexivity].
    rewrite Hclear.
    destruct (add_each_succeeds env (surveys (this st)) []
                (fun s _ => Hadd s) Hnd)
      as (store & -> & Hperm).
    + intros s _. apply not_elem_of_nil.
    + rewrite Hperm, app_nil_r. reflexivity.
  - rewrite persisted_this. exact Hnd.
Qed.

Lemma primary_in_line_start w :
  open_fails env = false ->
  getAll_fails env = false ->
  NoDup (id <$> objectStore w) ->
  primary_in_line (exec (initDatabase env) (start w)).
Proof.
  intros Hopen Hget Hnd. unfold exec.
  rewrite initDatabase_run, Hopen, Hget. cbn [snd].
  unfold loaded_from_objectStore.
  cbn [with_database exec set_database snd world start objectStore].
  destruct (0 <? length (objectStore w))%nat;
    (split; [discriminate | split; [reflexivity | exact Hnd]]).
Qed.

Lemma restoreBackup_declined l inputs st :
  restoreBackup env (Content (Parsed (Array l))) false inputs st
  = (Normal tt, st).
Proof. reflexivity. Qed.

Lemma dispatch_primary_in_line a st :
  clear_fails env = false ->
  (forall s, add_fails env s = false) ->
  primary_in_line st ->
  ids_fresh env [a] st ->
  completion (dispatch env a) st = Normal tt
  /\ primary_in_line (exec (dispatch env a) st).
Proof.
  intros Hclear Hadd (Hdb & Hstore & Hnd) [Hfresh _].
  assert (Hinv : primary_in_line st) by (repeat split; assumption).
  destruct a as [form now iso isNew|inputs|id0|id0 confirmed inputs
                |file confirmed inputs|password inputs];
    cbn [dispatch].
  - (* saveSurvey *)
    split; [apply saveSurvey_completion|].
    destruct (completion (validateForm form) st) as [[|]|e] eqn:Hv.
    + assert (Hnd' : NoDup (id <$> surveys
                  (this (exec (saveSurvey env form now iso isNew) st)))).
      { destruct (saveSurvey_ids env form now iso isNew st) as [->|[Ht ->]].
        - exact Hnd.
        - apply NoDup_app. repeat split.
          + exact Hnd.
          + intros k Hk Hk'. apply list_elem_of_singleton in Hk' as ->.
            exact (Hfresh Ht Hk).
          + apply NoDup_singleton. }
      revert Hnd'. unfold exec.
      rewrite (saveSurvey_valid env _ _ _ _ _ Hv). cbn [snd]. intros Hnd'.
      assert (H : primary_in_line
                    (persisted env
                       (with_surveys
                          (store_surveyData (currentEditId (this st))
                             (getFormData (this st) form now iso)
                             (surveys (this st)))
                          st))).
      { apply primary_in_line_persisted;
          [exact Hclear | exact Hadd | exact Hdb |].
        destruct isNew; cbn in Hnd'; rewrite persisted_this in Hnd';
          exact Hnd'. }
      destruct isNew; exact H.
    + destruct (saveSurvey_invalid env form now iso isNew st) as [evs E];
        [rewrite Hv; discriminate|].
      unfold exec. rewrite E. exact Hinv.
    + destruct (saveSurvey_invalid env form now iso isNew st) as [evs E];
        [rewrite Hv; discriminate|].
      unfold exec. rewrite E. exact Hinv.
  - (* searchSurvey *)
    unfold completion, exec. rewrite searchSurvey_run.
    split; [reflexivity | exact Hinv].
  - (* editSurvey *)
    unfold completion, exec, editSurvey.
    destruct (List.find _ (surveys (this st)));
      (split; [reflexivity | exact Hinv]).
  - (* deleteSurvey *)
    destruct confirmed; [|split; [reflexivity | exact Hinv]].
    unfold completion, exec. rewrite deleteSurvey_run. cbn [fst snd].
    split; [reflexivity|].
    destruct (database (this st)) as [db|] eqn:Ed; [|destruct Hdb; reflexivity].
    apply primary_in_line_persisted; [exact Hclear | exact Hadd | |].
    + cbn. rewrite Ed. discriminate.
    + cbn. apply NoDup_ids_filter, Hnd.
  - (* restoreBackup *)
    destruct file as [| |[| |field]];
      try (split; [reflexivity | exact Hinv]).
    destruct (Array_isArray field) eqn:Ha.
    + destruct field as [| |b|n|t| |l]; try discriminate Ha.
      destruct confirmed; [|split; [reflexivity | exact Hinv]].
      unfold completion, exec. rewrite restoreBackup_array_run.
      cbn [fst snd]. split; [reflexivity|].
      do 2 apply primary_in_line_logged.
      apply primary_in_line_persisted;
        [exact Hclear | exact Hadd | exact Hdb | exact Hfresh].
    + unfold completion, exec.
      rewrite (restoreBackup_not_array env _ _ _ _ Ha).
      split; [reflexivity | exact Hinv].
  - (* confirmClearAll *)
    destruct (String.eqb_spec password "1234") as [->|Hne].
    + unfold completion, exec. rewrite confirmClearAll_run. cbn [fst snd].
      split; [reflexivity|].
      destruct (database (this st)) as [db|] eqn:Ed;
        [|destruct Hdb; reflexivity].
      apply primary_in_line_persisted; [exact Hclear | exact Hadd | |].
      * cbn. rewrite Ed. discriminate.
      * cbn. apply NoDup_nil_2.
    + unfold completion, exec, confirmClearAll.
      rewrite (proj2 (String.eqb_neq password "1234") Hne).
      split; [reflexivity | exact Hinv].
Qed.

Lemma session_primary_in_line acts :
  forall st,
    clear_fails env = false ->
    (forall s, add_fails env s = false) ->
    primary_in_line st ->
    ids_fresh env acts st ->
    completion (session env acts) st = Normal tt
    /\ primary_in_line (exec (session env acts) st).
Proof.
  induction acts as [|a rest IH]; intros st Hclear Hadd Hinv Hfresh.
  - split; [reflexivity | exact Hinv].
  - destruct Hfresh as [Ha Hrest].
    destruct (dispatch_primary_in_line a st Hclear Hadd Hinv (conj Ha I))
      as [Hc Hinv'].
    destruct (IH _ Hclear Hadd Hinv' Hrest) as [Hc' Hinv''].
    unfold completion, exec in *. cbn [session]. unfold bind.
    destruct (dispatch env a st) as [[[]|e] st']; [|discriminate Hc].
    cbn [fst snd] in *. split; [exact Hc' | exact Hinv''].
Qed.

(** X21. On a device that opens the database and whose object store
    answers every request and holds one record per id, a start followed by
    any sequence of saves, searches, edits, deletions, restores and
    clearings completes normally, and at its end the object store holds
    exactly the records of the in-memory list, so that the next start
    loads them, whether or not the blob store accepts its copies; the ids
    that enter the list have to be new (time-based ids not taken, restored
    backups without a repeated id). *)
Theorem session_durable (w : World) (acts : list UserAction) :
  objectStore_answers env ->
  NoDup (id <$> objectStore w) ->
  ids_fresh env acts (exec (initDatabase env) (start w)) ->
  completion (initDatabase env ;; session env acts) (start w) = Normal tt
  /\ primary_in_line (exec (initDatabase env ;; session env acts) (start w))
  /\ surveys (this (exec (initDatabase env)
                      (start (world (exec (initDatabase env ;;
                                           session env acts) (start w))))))
     ≡ₚ surveys (this (exec (initDatabase env ;; session env acts)
                         (start w))).
Proof.
  intros (Hopen & Hget & Hclear & Hadd) Hnd Hfresh.
  pose proof (primary_in_line_start w Hopen Hget Hnd) as Hinv.
  destruct (session_primary_in_line acts _ Hclear Hadd Hinv Hfresh)
    as [Hc Hinv'].
  assert (Hrun : (initDatabase env ;; session env acts) (start w)
                 = session env acts (exec (initDatabase env) (start w))).
  { unfold bind, exec. rewrite initDatabase_run. reflexivity. }
  unfold completion, exec in *. rewrite Hrun.
  split; [exact Hc|]. split; [exact Hinv'|].
  destruct Hinv' as (_ & Hstore & _).
  rewrite initDatabase_run, Hopen, Hget. cbn [snd].
  rewrite loaded_from_objectStore_surveys. exact Hstore.
Qed.

End SessionProperties.

(** ** Backup, then restore *)

Section BackupRestore.

Context {P : Platform} {B : BackupPlatform}.


End BackupRestore.

Lemma Reference_backup_laws : BackupLaws Reference.backup_platform.
Proof.
  constructor. intros b. unfold JSON_parse_backup, JSON_stringify_backup.
  cbn [Reference.backup_platform].
  rewrite (JSON_parse_stringify (PlatformLaws := Reference_laws)).
  reflexivity.
Qed.

(** ** A session without the database, and two starts in a row *)

Section BlobSession.

Context {P : Platform} (env : Env).

Hypothesis setItem_accepts : forall v, setItem_throws env v = false.







End BlobSession.

Section BlobSessionDurable.

Context {P : Platform} {L : PlatformLaws P} (env : Env).



End BlobSessionDurable.

(** * The methods on concrete inputs

    Each property with a hypothesis is applied to a concrete run on the
    reference platform; the statements that do not hold of the code in the
    generality a reader might expect are refuted on a concrete run. *)

Section Runs.

Import Examples.

#[local] Existing Instance Reference.platform.
#[local] Existing Instance Reference_laws.

(** *** Persist, then load *)


(** The two records come back in key order. *)
Example persist_then_load_key_order :
  surveys (this (exec (initDatabase healthy)
                   (start (world (exec (saveToDatabase healthy)
                                    two_records)))))
  = [s1; s2].
Proof. lazy. reflexivity. Qed.


(** Without a handle the list comes back through the blob store, in list
    order. *)
Example persist_then_load_blob_store :
  surveys (this (exec (initDatabase no_database)
                   (start (world (exec (saveToDatabase no_database)
                                    two_records_no_handle)))))
  = [s2; s1].
Proof. rewrite round_trip_localStorage by reflexivity. reflexivity. Qed.

(** A house number that is not a number is [null] after the trip through
    the blob store. *)
Example persist_then_load_NaN :
  houseNumber <$> surveys (this house_abc) = [Some NaN]
  /\ houseNumber
     <$> surveys (this (exec (initDatabase no_database)
                          (start (world (exec (saveToDatabase no_database)
                                           house_abc)))))
     = [None].
Proof.
  split; [reflexivity|].
  rewrite round_trip_localStorage by reflexivity. reflexivity.
Qed.

(** *** The mirror write *)



(** *** No database *)



(** *** The blob store read *)

Lemma loadFromLocalStorage_absent_or_malformed_witness :
  (exists text,
     pserSurveys (world malformed_blob) = Some text
     /\ JSON_parse text = None)
  /\ surveys (this (exec loadFromLocalStorage malformed_blob)) = [].
Proof.
  assert (H : exists text,
            pserSurveys (world malformed_blob) = Some text
            /\ JSON_parse text = None).
  { exists "{not json". split; reflexivity. }
  split; [exact H|].
  exact (proj1 (proj2 (loadFromLocalStorage_absent_or_malformed
                         malformed_blob (or_intror H)))).
Defined.

(** *** Saving *)

Lemma saveSurvey_replaces_or_appends_witness :
  completion (validateForm (form "7")) editing_first = Normal true
  /\ length
       (surveys (this (exec (saveSurvey healthy (form "7") "1700" iso false)
                         editing_first)))
     = length (surveys (this editing_first)).
Proof.
  assert (Hv : completion (validateForm (form "7")) editing_first
               = Normal true) by (vm_compute; reflexivity).
  split; [exact Hv|].
  destruct (proj1 (saveSurvey_replaces_or_appends healthy editing_first
                     (form "7") "1700" iso false Hv) "1" eq_refl)
    as (i & old & _ & _ & _ & _ & _ & _ & Hlen).
  - discriminate.
  - apply (bool_decide_unpack _). vm_compute. reflexivity.
  - exact Hlen.
Defined.

(** The edited record is overwritten where it stood. *)
Example saveSurvey_edit_in_place :
  houseNumber
  <$> surveys (this (exec (saveSurvey healthy (form "7") "1700" iso false)
                       editing_first))
  = [Some (Num 7); Some (Num 102)].
Proof. lazy. reflexivity. Qed.

(** Two saves of a valid form that do not do what an upsert by id would.
    In edit mode for an id that no record carries, the record, whose id is
    not in the list, is not appended. Outside edit mode, at a clock reading
    that is the id of a record of the list, the record is appended although
    its id is in the list: the list grows. *)
Lemma saveSurvey_missing_edit_id_not_appended :
  completion (validateForm (form "7")) editing_missing = Normal true
  /\ ((forall s, s ∈ surveys (this editing_missing) ->
         id s <> id (getFormData (this editing_missing) (form "7") "1700" iso))
      /\ surveys (this (exec (saveSurvey healthy (form "7") "1700" iso false)
                          editing_missing))
         <> surveys (this editing_missing)
            ++ [getFormData (this editing_missing) (form "7") "1700" iso])
  /\ ((id (getFormData (this two_records) (form "7") "1" iso)
       ∈ id <$> surveys (this two_records))
      /\ length (surveys (this (exec (saveSurvey healthy (form "7") "1" iso
                                        false)
                                  two_records)))
         <> length (surveys (this two_records))).
Proof.
  split; [vm_compute; reflexivity|]. split; split.
  - intros s Hs. apply list_elem_of_singleton in Hs as ->. discriminate.
  - intros H. apply (f_equal length) in H. lazy in H. discriminate H.
  - apply (bool_decide_unpack _). vm_compute. reflexivity.
  - lazy. discriminate.
Qed.

(** Such a state is reached by opening a record for editing and deleting
    it from the search results before saving. *)
Example edit_then_delete :
  currentEditId
    (this (exec (deleteSurvey healthy "2" true no_search)
             (exec (editSurvey "2") two_records)))
  = Some "2"
  /\ id <$> surveys (this (exec (deleteSurvey healthy "2" true no_search)
                             (exec (editSurvey "2") two_records)))
     = ["1"].
Proof. split; lazy; reflexivity. Qed.




(** *** Restore *)

Lemma restoreBackup_rejects_malformed_witness :
  Array_isArray Undefined = false
  /\ surveys (this (exec (restoreBackup healthy (Content (Parsed Undefined))
                            true no_search)
                      two_records))
     = surveys (this two_records).
Proof.
  split; [reflexivity|].
  exact (proj2 (proj2 (restoreBackup_rejects_malformed healthy two_records
                         Undefined true no_search eq_refl))).
Defined.

(** *** Search *)


(** House number 101 among three records with the house numbers 101, 102
    and 103; the digits 12345, typed with a dash, among their CNICs. *)
Example search_house_101 :
  search_results by_house_101 (surveys (this three_records)) = Some [s1].
Proof. vm_compute. reflexivity. Qed.

Example search_cnic_12345 :
  search_results by_cnic_12345 (surveys (this three_records)) = Some [s3].
Proof. vm_compute. reflexivity. Qed.

(** *** Delete *)

Example deleteSurvey_present :
  surveys (this (exec (deleteSurvey healthy "2" true no_search) three_records))
  = [s1; s3].
Proof. lazy. reflexivity. Qed.

Example deleteSurvey_absent :
  surveys (this (exec (deleteSurvey healthy "9" true no_search) three_records))
  = [s1; s2; s3].
Proof. lazy. reflexivity. Qed.

(** *** Validation and the input handlers *)

Lemma saveSurvey_rejects_invalid_witness :
  completion (validateForm no_house) two_records <> Normal true
  /\ exists msg,
       saveSurvey healthy no_house "1700" iso false two_records
       = (Normal tt, logged [Alert msg] two_records).
Proof.
  assert (Hv : completion (validateForm no_house) two_records <> Normal true)
    by (vm_compute; discriminate).
  split; [exact Hv|].
  exact (saveSurvey_rejects_invalid healthy two_records no_house "1700" iso
           false Hv).
Defined.

(** The alert names the input that was left empty. *)
Example validateForm_no_house :
  validateForm no_house two_records
  = (Normal false, logged [Alert "Please fill in house number"] two_records).
Proof. vm_compute. reflexivity. Qed.

(** Thirteen digits, typed without dashes, with one digit too few and with
    dashes at other places. *)
Example format_cnic_13_digits :
  format_cnic "3330112345671" = "33301-1234567-1"
  /\ format_cnic "333011234567" = "33301-1234567"
  /\ format_cnic "333-011234567-1" = "33301-1234567-1".
Proof. vm_compute. repeat split. Qed.

Example format_contact_10_digits :
  format_contact "3451234567" = "0345-1234567"
  /\ format_contact "03451234567" = "0345-1234567".
Proof. vm_compute. repeat split. Qed.

Lemma search_ignores_cnic_format_witness :
  digits_only "1234500000003" <> ""
  /\ searchSurvey
       {| Dom.searchHouseNumber := None;
          Dom.searchCnic := Some (format_cnic "1234500000003") |}
       three_records
     = searchSurvey
         {| Dom.searchHouseNumber := None;
            Dom.searchCnic := Some "1234500000003" |}
         three_records.
Proof.
  assert (Hd : digits_only "1234500000003" <> "")
    by (vm_compute; discriminate).
  split; [exact Hd|].
  exact (search_ignores_cnic_format "1234500000003" None three_records Hd).
Defined.

(** *** Search with both inputs *)

Lemma searchSurvey_both_inputs_witness :
  NoDup (id <$> surveys (this three_records))
  /\ exists results,
       searchSurvey by_house_101_and_cnic_12345 three_records
       = (Normal tt, logged [Display results] three_records)
       /\ NoDup (id <$> results).
Proof.
  assert (Hn : NoDup (id <$> surveys (this three_records))).
  { apply (bool_decide_unpack _). vm_compute. reflexivity. }
  split; [exact Hn|].
  destruct (searchSurvey_both_inputs three_records
              by_house_101_and_cnic_12345 "101" "12345" eq_refl)
    as (results & Hrun & Hnd & _).
  - discriminate.
  - reflexivity.
  - discriminate.
  - exact Hn.
  - exists results. split; [exact Hrun | exact Hnd].
Defined.

(** The record of house 101 and the record whose CNIC holds 12345. *)
Example search_house_101_and_cnic_12345 :
  search_results by_house_101_and_cnic_12345 (surveys (this three_records))
  = Some [s1; s3].
Proof. vm_compute. reflexivity. Qed.

(** *** The house code *)

#[local] Existing Instance Reference.number_platform.
#[local] Existing Instance Reference_number_laws.

Lemma generateHouseCode_injective_witness :
  0 < or_zero (parseInt "12") <= 2 ^ 53
  /\ 0 < or_zero (parseInt " 012") <= 2 ^ 53
  /\ generateHouseCode "12" "2" true = generateHouseCode " 012" "2nd" true
  /\ or_zero (parseInt "12") = or_zero (parseInt " 012").
Proof.
  assert (H1 : 0 < or_zero (parseInt "12") <= 2 ^ 53)
    by (vm_compute; split; [reflexivity | discriminate]).
  assert (H2 : 0 < or_zero (parseInt " 012") <= 2 ^ 53)
    by (vm_compute; split; [reflexivity | discriminate]).
  assert (E : generateHouseCode "12" "2" true
              = generateHouseCode " 012" "2nd" true)
    by (vm_compute; reflexivity).
  split; [exact H1|]. split; [exact H2|]. split; [exact E|].
  exact (proj1 (generateHouseCode_injective "12" "2" " 012" "2nd" true true
                  H1 H2 E)).
Defined.

Example generateHouseCode_12_B_X :
  generateHouseCode "12" "2" true = "0012/B,X"
  /\ generateHouseCode "12345" "27" true = "12345"
  /\ generateHouseCode "0" "2" false = "".
Proof. vm_compute. repeat split. Qed.

(** *** Edit, then save *)

Lemma editSurvey_then_saveSurvey_witness :
  "2" <> ""
  /\ List.find (fun s => (id s =? "2")%string) (surveys (this three_records))
     = Some s2
  /\ completion (validateForm (form "7")) three_records = Normal true
  /\ id <$> surveys (this (exec (editSurvey "2" ;;
                                 saveSurvey healthy (form "7") "1700" iso
                                   false)
                             three_records))
     = id <$> surveys (this three_records).
Proof.
  assert (Hne : "2" <> "") by discriminate.
  assert (Hf : List.find (fun s => (id s =? "2")%string)
                 (surveys (this three_records)) = Some s2)
    by (vm_compute; reflexivity).
  assert (Hv : completion (validateForm (form "7")) three_records
               = Normal true) by (vm_compute; reflexivity).
  split; [exact Hne|]. split; [exact Hf|]. split; [exact Hv|].
  destruct (editSurvey_then_saveSurvey healthy three_records "2" s2
              (form "7") "1700" iso false Hne Hf Hv)
    as (i & r & _ & _ & _ & _ & _ & _ & Hids & _).
  exact Hids.
Defined.

Lemma saveSurvey_twice_appends_twice_witness :
  completion (validateForm (form "7")) two_records = Normal true
  /\ truthy_opt (currentEditId (this two_records)) = false
  /\ length
       (surveys (this (exec (saveSurvey healthy (form "7") "1700" iso false ;;
                             saveSurvey healthy (form "7") "1800" iso false)
                         two_records)))
     = 4%nat.
Proof.
  assert (Hv : completion (validateForm (form "7")) two_records
               = Normal true) by (vm_compute; reflexivity).
  split; [exact Hv|]. split; [reflexivity|].
  rewrite (proj1 (saveSurvey_twice_appends_twice healthy two_records
                    (form "7") "1700" iso "1800" iso Hv eq_refl)).
  reflexivity.
Defined.

(** *** What a handler leaves in the stores *)

Lemma reliable_healthy : reliable healthy.
Proof. repeat split. Qed.




Lemma confirmClearAll_durable_witness :
  reliable healthy
  /\ surveys (this (exec (initDatabase healthy)
                      (start (world (exec (confirmClearAll healthy "1234"
                                             no_search)
                                       two_records)))))
     = [].
Proof.
  split; [exact reliable_healthy|].
  exact (proj2 (proj2 (proj2 (confirmClearAll_durable healthy two_records
                                no_search reliable_healthy eq_refl)))).
Defined.

(** *** A session *)

Lemma objectStore_answers_full_localStorage :
  objectStore_answers full_localStorage.
Proof. repeat split. Qed.

(** The session on a device whose blob store is full. *)
Lemma session_durable_witness :
  objectStore_answers full_localStorage
  /\ NoDup (id <$> objectStore empty_device)
  /\ ids_fresh full_localStorage a_session
       (exec (initDatabase full_localStorage) (start empty_device))
  /\ surveys (this (exec (initDatabase full_localStorage)
                      (start (world (exec (initDatabase full_localStorage ;;
                                           session full_localStorage
                                             a_session)
                                       (start empty_device))))))
     ≡ₚ surveys (this (exec (initDatabase full_localStorage ;;
                             session full_localStorage a_session)
                         (start empty_device))).
Proof.
  assert (Hn : NoDup (id <$> objectStore empty_device)) by apply NoDup_nil_2.
  assert (Hf : ids_fresh full_localStorage a_session
                 (exec (initDatabase full_localStorage)
                    (start empty_device))).
  { cbn [a_session ids_fresh]. repeat split.
    - intros _. lazy. intros H. inversion H.
    - intros Ht. lazy in Ht. discriminate Ht.
    - apply (bool_decide_unpack _). vm_compute. reflexivity. }
  split; [exact objectStore_answers_full_localStorage|].
  split; [exact Hn|]. split; [exact Hf|].
  exact (proj2 (proj2 (session_durable full_localStorage empty_device
                         a_session objectStore_answers_full_localStorage
                         Hn Hf))).
Defined.

(** At the end of that session the list holds the first record. *)
Example a_session_surveys :
  surveys (this (exec (initDatabase full_localStorage ;;
                       session full_localStorage a_session)
                   (start empty_device)))
  = [s1].
Proof. lazy. reflexivity. Qed.

(** *** The order of the object store, repeated and failed writes *)

Lemma objectStore_round_trip_order_witness :
  database (this two_records) <> None
  /\ NoDup (id <$> surveys (this two_records))
  /\ StronglySorted id_lt
       (surveys (this (exec (initDatabase healthy)
                         (start (world (exec (saveToDatabase healthy)
                                          two_records)))))).
Proof.
  assert (Hdb : database (this two_records) <> None) by discriminate.
  assert (Hn : NoDup (id <$> surveys (this two_records))).
  { apply (bool_decide_unpack _). vm_compute. reflexivity. }
  split; [exact Hdb|]. split; [exact Hn|].
  exact (proj1 (objectStore_round_trip_order healthy two_records Hdb
                  eq_refl eq_refl eq_refl (fun _ _ => eq_refl) Hn)).
Defined.

Lemma failed_transaction_lost_at_restart_witness :
  database (this stale_store) <> None
  /\ clear_fails clear_refused = true
  /\ surveys (this stale_store) = [s1; s2]
  /\ FallbackStore_holds [s1; s2]
       (world (exec (saveToDatabase clear_refused) stale_store))
  /\ surveys (this (exec (initDatabase healthy)
                      (start (world (exec (saveToDatabase clear_refused)
                                       stale_store)))))
     = [s3].
Proof.
  assert (Hdb : database (this stale_store) <> None) by discriminate.
  split; [exact Hdb|]. split; [reflexivity|]. split; [reflexivity|].
  destruct (failed_transaction_lost_at_restart clear_refused healthy
              stale_store Hdb (or_introl eq_refl) eq_refl eq_refl eq_refl)
    as (Hblob & _ & Hload & _).
  split; [exact Hblob | exact Hload].
Defined.



(** *** Backup, then restore *)

#[local] Existing Instance Reference.backup_platform.
#[local] Existing Instance Reference_backup_laws.


End Runs.
